(** * Authenticated-request lifecycle of the generated CRUD skeleton

    A shallow embedding of the authentication code that the two generator
    scripts emit:

    - backend (Go, [go-simple-structure.sh]): [utils/jwt.go],
      [repositories/user_repository.go], [handlers/auth_handler.go],
      [middlewares/auth.go];
    - frontend (TypeScript): [src/api/client.ts], [src/api/auth],
      [src/stores/auth.ts].

    Go packages and TypeScript modules become Rocq modules of the same
    name.  Third-party primitives (HMAC, bcrypt, the validator's e-mail
    format check) are section variables: every statement holds for any
    implementation of them. *)

From Stdlib Require Import ZArith Bool List Lia.
From stdpp Require Import base option strings gmap.
Import ListNotations.

Local Open Scope string_scope.
Local Open Scope Z_scope.

(** Go functions returning [(T, error)] with exactly one side set. *)
Inductive result (E A : Type) : Type :=
| Ok (a : A)
| Err (e : E).
Arguments Ok {E A} a.
Arguments Err {E A} e.

Definition is_ok {E A} (r : result E A) : bool :=
  match r with Ok _ => true | Err _ => false end.

(** Instants are Unix seconds.  [jwt.NewNumericDate] truncates to
    [jwt.TimePrecision], one second, and comparing an untruncated
    [time.Now()] with a whole second is comparing its whole second. *)
Definition Time := Z.

(** [24 * time.Hour], in seconds. *)
Definition hours24 : Z := 24 * 3600.

(** ** The part of [github.com/golang-jwt/jwt/v5] that [utils/jwt.go] calls *)
Module jwt.

Inductive SigningMethod :=
| SigningMethodHS256
| SigningMethodHS384
| SigningMethodHS512
| SigningMethodNone
| SigningMethodAsymmetric.

(** The date fields of [jwt.RegisteredClaims]; they are pointers in Go,
    [None] is [nil]. Issuer, subject, audience and id are only checked
    when the parser is given expectations, which [ValidateJWT] never
    does. *)
Record RegisteredClaims := {
  ExpiresAt : option Time;
  NotBefore : option Time;
  IssuedAt : option Time
}.

(** The [jwt.Claims] interface, as far as the validator reads it. *)
Class ClaimsI (C : Type) := GetRegistered : C -> RegisteredClaims.

Inductive ClaimError :=
| ErrTokenExpired
| ErrTokenNotValidYet.

Inductive Error :=
| ErrTokenMalformed
| ErrTokenSignatureInvalid
| ErrTokenInvalidClaims (errs : list ClaimError)
| ErrInvalidKeyType.

Record Token (C : Type) := {
  Method : SigningMethod;
  Claims : C;
  Signature : string;
  Valid : bool
}.
Arguments Method {C} t.
Arguments Claims {C} t.
Arguments Signature {C} t.
Arguments Valid {C} t.

(** A token string. The compact serialization (three base64url segments
    joined by dots) is kept decoded: a string that splits and decodes is
    [Compact] with its header algorithm, its claims and its signature
    segment; any other string is [Unparseable]. *)
Inductive tokenString (C : Type) :=
| Compact (alg : SigningMethod) (claims : C) (sig : string)
| Unparseable.
Arguments Compact {C} alg claims sig.
Arguments Unparseable {C}.

Section Library.
Context {C : Type} `{ClaimsI C}.

(** The MAC of the signing input (header and claims segments) under a
    byte-string key, base64url encoded. *)
Variable hmac : SigningMethod -> string -> C -> string.

Definition NewWithClaims (m : SigningMethod) (claims : C) : Token C :=
  {| Method := m; Claims := claims; Signature := ""; Valid := false |}.

(** [SigningMethod.Sign] with a [[]byte] key. *)
Definition Sign (m : SigningMethod) (claims : C) (key : string)
  : result Error string :=
  match m with
  | SigningMethodHS256 | SigningMethodHS384 | SigningMethodHS512 =>
      Ok (hmac m key claims)
  | SigningMethodNone | SigningMethodAsymmetric => Err ErrInvalidKeyType
  end.

Definition SignedString (t : Token C) (key : string)
  : result Error (tokenString C) :=
  match Sign (Method t) (Claims t) key with
  | Ok sig => Ok (Compact (Method t) (Claims t) sig)
  | Err e => Err e
  end.

(** [SigningMethod.Verify] with a [[]byte] key: [true] is a nil error. *)
Definition Verify (m : SigningMethod) (claims : C) (sig key : string)
  : bool :=
  match m with
  | SigningMethodHS256 | SigningMethodHS384 | SigningMethodHS512 =>
      String.eqb sig (hmac m key claims)
  | SigningMethodNone | SigningMethodAsymmetric => false
  end.

(** [cmp.Before(exp)], not required: an absent claim passes. *)
Definition verifyExpiresAt (rc : RegisteredClaims) (cmp : Time) : bool :=
  match ExpiresAt rc with
  | None => true
  | Some exp => cmp <? exp
  end.

(** [!cmp.Before(nbf)]. *)
Definition verifyNotBefore (rc : RegisteredClaims) (cmp : Time) : bool :=
  match NotBefore rc with
  | None => true
  | Some nbf => negb (cmp <? nbf)
  end.

(** [Validator.Validate] with the default options: no leeway, issued-at
    not verified, no expected audience, issuer or subject. *)
Definition Validate (rc : RegisteredClaims) (now : Time)
  : list ClaimError :=
  (if verifyExpiresAt rc now then [] else [ErrTokenExpired]) ++
  (if verifyNotBefore rc now then [] else [ErrTokenNotValidYet]).

(** [Parser.ParseWithClaims]: decode, look the key up, verify the
    signature, then validate the claims at the time of the call. *)
Definition ParseWithClaims (now : Time) (s : tokenString C)
    (keyFunc : Token C -> string) : result Error (Token C) :=
  match s with
  | Unparseable => Err ErrTokenMalformed
  | Compact alg claims sig =>
      let token :=
        {| Method := alg; Claims := claims; Signature := sig;
           Valid := false |} in
      if negb (Verify alg claims sig (keyFunc token)) then
        Err ErrTokenSignatureInvalid
      else
        match Validate (GetRegistered claims) now with
        | [] =>
            Ok {| Method := alg; Claims := claims; Signature := sig;
                  Valid := true |}
        | errs => Err (ErrTokenInvalidClaims errs)
        end
  end.
End Library.
End jwt.

(** ** [utils/jwt.go] *)
Module utils.

Definition jwtSecret : string := "your-secret-key".

Record Claims := {
  UserID : string;
  Email : string;
  Role : string;
  RegisteredClaims : jwt.RegisteredClaims
}.

#[export] Instance Claims_ClaimsI : jwt.ClaimsI Claims := RegisteredClaims.

Inductive error :=
| JwtError (e : jwt.Error)
| ErrorsNew (msg : string).

Section Jwt.
Variable hmac : jwt.SigningMethod -> string -> Claims -> string.

(** [now] is the reading of [time.Now()]; the three readings of one call
    are one instant. *)
Definition GenerateJWT (now : Time) (userID email role : string)
  : result jwt.Error (jwt.tokenString Claims) :=
  let claims :=
    {| UserID := userID;
       Email := email;
       Role := role;
       RegisteredClaims :=
         {| jwt.ExpiresAt := Some (now + hours24);
            jwt.IssuedAt := Some now;
            jwt.NotBefore := Some now |} |} in
  let token := jwt.NewWithClaims jwt.SigningMethodHS256 claims in
  jwt.SignedString hmac token jwtSecret.

Definition ValidateJWT (now : Time) (tokenString : jwt.tokenString Claims)
  : result error Claims :=
  match jwt.ParseWithClaims hmac now tokenString (fun _ => jwtSecret) with
  | Err err => Err (JwtError err)
  | Ok token =>
      if jwt.Valid token then Ok (jwt.Claims token)
      else Err (ErrorsNew "invalid token")
  end.
End Jwt.
End utils.

(** ** [fiber] status codes and handler outcomes *)
Module fiber.
Definition StatusOK : Z := 200.
Definition StatusBadRequest : Z := 400.
Definition StatusUnauthorized : Z := 401.
Definition StatusForbidden : Z := 403.
Definition StatusInternalServerError : Z := 500.
End fiber.

(** ** [models/user.go] *)
Module models.
Record User := {
  ID : string;
  Email : string;
  Name : string;
  Password : string;
  Role : string;
  IsActive : bool
}.
End models.

(** ** The [gorm] query that the user repository issues *)
Module gorm.
Inductive error :=
| ErrRecordNotFound
| ErrOther (msg : string).

(** The users table in primary-key order, and the fault (lost
    connection, ...) under which a query fails, if there is one. *)
Record DB := {
  users : list models.User;
  fault : option string
}.

(** [db.Where("email = ?", email).First(&user).Error] *)
Definition WhereEmailFirst (db : DB) (email : string)
  : result error models.User :=
  match fault db with
  | Some msg => Err (ErrOther msg)
  | None =>
      match find (fun u => String.eqb (models.Email u) email) (users db) with
      | Some u => Ok u
      | None => Err ErrRecordNotFound
      end
  end.
End gorm.

(** ** [repositories/user_repository.go] *)
Module repositories.
(** The pair is Go's pointer-and-error return; [None] is [nil] on either
    side. *)
Definition GetByEmail (db : gorm.DB) (email : string)
  : option models.User * option gorm.error :=
  match gorm.WhereEmailFirst db email with
  | Err err =>
      match err with
      | gorm.ErrRecordNotFound => (None, None)
      | _ => (None, Some err)
      end
  | Ok user => (Some user, None)
  end.
End repositories.

(** ** [handlers/auth_handler.go], with [utils/response.go] and
       [utils/validator.go] *)
Module handlers.

Record LoginInput := {
  Email : string;
  Password : string
}.

(** A failed validation tag on a field. *)
Record FieldError := {
  Field : string;
  Tag : string
}.

Record UserView := {
  id : string;
  email : string;
  name : string;
  role : string
}.

Inductive Body :=
| ErrorBody (message : string)
| ValidationBody (errors : list FieldError)
| LoginBody (message : string) (token : jwt.tokenString utils.Claims)
    (user : UserView).

Record Response := {
  status : Z;
  body : Body
}.

(** What a handler call ends in: a response written, or a runtime
    panic. *)
Inductive Outcome :=
| Responded (r : Response)
| Panicked (msg : string).

Definition nilDereference : string :=
  "runtime error: invalid memory address or nil pointer dereference".

Definition ErrorResponse (code : Z) (message : string) : Outcome :=
  Responded {| status := code; body := ErrorBody message |}.

Definition ValidationErrorResponse (errors : list FieldError) : Outcome :=
  Responded {| status := fiber.StatusBadRequest;
               body := ValidationBody errors |}.

(** [app.Use(recover.New())] in front of [customErrorHandler]: a panic
    becomes an error that is not a fiber error, answered with 500 and
    the error's text. *)
Definition recover (o : Outcome) : Response :=
  match o with
  | Responded r => r
  | Panicked msg =>
      {| status := fiber.StatusInternalServerError; body := ErrorBody msg |}
  end.

Section AuthHandler.
Variable hmac : jwt.SigningMethod -> string -> utils.Claims -> string.
(** [bcrypt.CompareHashAndPassword(hash, password) == nil] *)
Variable CompareHashAndPassword : string -> string -> bool.
(** The validator's [email] tag. *)
Variable isEmail : string -> bool.

(** [utils.ValidateStruct] on the login input: tags
    [required,email] on [Email] and [required] on [Password]; the
    first failing tag of each field is reported. *)
Definition ValidateStruct (input : LoginInput) : list FieldError :=
  (if String.eqb (Email input) "" then
     [{| Field := "Email"; Tag := "required" |}]
   else if negb (isEmail (Email input)) then
     [{| Field := "Email"; Tag := "email" |}]
   else []) ++
  (if String.eqb (Password input) "" then
     [{| Field := "Password"; Tag := "required" |}]
   else []).

(** [requestBody] is [None] when [c.BodyParser] fails. *)
Definition Login (db : gorm.DB) (now : Time)
    (requestBody : option LoginInput) : Outcome :=
  match requestBody with
  | None => ErrorResponse fiber.StatusBadRequest "Invalid input"
  | Some input =>
      match ValidateStruct input with
      | _ :: _ as errs => ValidationErrorResponse errs
      | [] =>
          match repositories.GetByEmail db (Email input) with
          | (_, Some _) =>
              ErrorResponse fiber.StatusUnauthorized "Invalid credentials"
          | (None, None) =>
              (* [user.Password] on a nil [user] *)
              Panicked nilDereference
          | (Some user, None) =>
              if negb (CompareHashAndPassword (models.Password user)
                         (Password input)) then
                ErrorResponse fiber.StatusUnauthorized
                  "Invalid credentials"
              else if negb (models.IsActive user) then
                ErrorResponse fiber.StatusForbidden "Account is inactive"
              else
                match utils.GenerateJWT hmac now (models.ID user)
                        (models.Email user) (models.Role user) with
                | Err _ =>
                    ErrorResponse fiber.StatusInternalServerError
                      "Failed to generate token"
                | Ok token =>
                    Responded
                      {| status := fiber.StatusOK;
                         body :=
                           LoginBody "Login successful" token
                             {| id := models.ID user;
                                email := models.Email user;
                                name := models.Name user;
                                role := models.Role user |} |}
                end
          end
      end
  end.
End AuthHandler.
End handlers.

(** ** [middlewares/auth.go] *)
Module middlewares.

(** Values of Go's [interface{}] kept in a request's locals. *)
Inductive any :=
| AnyString (s : string)
| AnyInt (n : Z)
| AnyBool (b : bool).

(** [role == "admin"] on an interface value: only the string [admin] is
    equal to it. *)
Definition isAdmin (v : any) : bool :=
  match v with
  | AnyString s => String.eqb s "admin"
  | _ => false
  end.

(** The [Authorization] header after [strings.Split(authHeader, " ")]:
    empty, exactly two parts, or any other number of parts. *)
Inductive Authorization :=
| NoHeader
| TwoParts (scheme : string) (token : jwt.tokenString utils.Claims)
| OtherParts.

(** A middleware either passes the request on with its locals, or
    answers it. *)
Inductive Handled :=
| Next (locals : gmap string any)
| Reply (status : Z) (message : string).

Section Auth.
Variable hmac : jwt.SigningMethod -> string -> utils.Claims -> string.

Definition AuthMiddleware (now : Time) (authHeader : Authorization)
    (locals : gmap string any) : Handled :=
  match authHeader with
  | NoHeader =>
      Reply fiber.StatusUnauthorized "Authorization header required"
  | OtherParts =>
      Reply fiber.StatusUnauthorized "Invalid authorization format"
  | TwoParts scheme token =>
      if negb (String.eqb scheme "Bearer") then
        Reply fiber.StatusUnauthorized "Invalid authorization format"
      else
        match utils.ValidateJWT hmac now token with
        | Err _ =>
            Reply fiber.StatusUnauthorized "Invalid or expired token"
        | Ok claims =>
            Next (<["role" := AnyString (utils.Role claims)]>
                  (<["email" := AnyString (utils.Email claims)]>
                   (<["user_id" := AnyString (utils.UserID claims)]>
                    locals)))
        end
  end.
End Auth.

Definition AdminOnly (locals : gmap string any) : Handled :=
  match locals !! "role" with
  | None => Reply fiber.StatusUnauthorized "Unauthorized"
  | Some role =>
      if negb (isAdmin role) then
        Reply fiber.StatusForbidden "Admin access required"
      else Next locals
  end.
End middlewares.

(** ** [src/api/client.ts]: the axios instance and its interceptors *)
Module client.

(** What the page's scripts share: the origin's [localStorage] and
    [window.location.href]. *)
Record Browser := {
  localStorage : gmap string string;
  href : string
}.

(** JavaScript truthiness of a [string | null]. *)
Definition truthy (v : option string) : bool :=
  match v with
  | Some s => negb (String.eqb s "")
  | None => false
  end.

Record Request (D : Type) := {
  url : string;
  data : D;
  headers : gmap string string
}.
Arguments url {D} r.
Arguments data {D} r.
Arguments headers {D} r.

(** How the exchange with the server ends: a 2xx response with its
    body, or an axios error; [error.response?.status] is [None] when no
    response arrived. *)
Inductive Exchange (T : Type) :=
| Fulfilled (responseData : T)
| Failed (status : option Z).
Arguments Fulfilled {T} responseData.
Arguments Failed {T} status.

Record AxiosError := { responseStatus : option Z }.

(** [client.interceptors.request.use]: attach the persisted token. *)
Definition onRequest {D} (b : Browser) (config : Request D) : Request D :=
  match localStorage b !! "token" with
  | Some token =>
      if truthy (Some token) then
        {| url := url config;
           data := data config;
           headers :=
             <["Authorization" := "Bearer " +:+ token]> (headers config) |}
      else config
  | None => config
  end.

(** The rejection side of [client.interceptors.response.use], before the
    error is re-thrown. *)
Definition onRejected (status : option Z) (b : Browser) : Browser :=
  match status with
  | Some code =>
      if code =? 401 then
        {| localStorage := delete "token" (localStorage b);
           href := "/login" |}
      else b
  | None => b
  end.

Section Post.
Context {D T : Type}.
Variable server : Request D -> Exchange T.

(** [client.post(url, data)]: the promise resolves with
    [response.data] or rejects with the error. *)
Definition post (path : string) (payload : D) (b : Browser)
  : Browser * result AxiosError T :=
  let config :=
    onRequest b {| url := path; data := payload; headers := ∅ |} in
  match server config with
  | Fulfilled responseData => (b, Ok responseData)
  | Failed status =>
      (onRejected status b, Err {| responseStatus := status |})
  end.
End Post.
End client.

(** ** [src/api/auth] *)
Module authApi.

Record LoginCredentials := {
  email : string;
  password : string
}.

Record AuthUser := {
  id : string;
  name : string;
  userEmail : string
}.

Record AuthResponse := {
  token : string;
  user : AuthUser
}.

Definition login (server : client.Request LoginCredentials
                           -> client.Exchange AuthResponse)
    (credentials : LoginCredentials) (b : client.Browser)
  : client.Browser * result client.AxiosError AuthResponse :=
  client.post server "/auth/login" credentials b.
End authApi.

(** ** [src/stores/auth.ts] *)
Module useAuthStore.

(** The refs of the store. *)
Record State := {
  token : option string;
  user : option authApi.AuthUser;
  loading : bool
}.

(** A store instance together with the browser state it shares with the
    client's interceptors. *)
Record World := {
  store : State;
  browser : client.Browser
}.

(** The setup function, run once when the application boots. *)
Definition setup (b : client.Browser) : State :=
  {| token := client.localStorage b !! "token";
     user := None;
     loading := false |}.

(** [computed(() => !!token.value)] *)
Definition isAuthenticated (s : State) : bool := client.truthy (token s).

Definition setLoading (v : bool) (s : State) : State :=
  {| token := token s; user := user s; loading := v |}.

Definition login (server : client.Request authApi.LoginCredentials
                           -> client.Exchange authApi.AuthResponse)
    (credentials : authApi.LoginCredentials) (w : World)
  : World * result client.AxiosError unit :=
  let s := setLoading true (store w) in
  match authApi.login server credentials (browser w) with
  | (b, Ok response) =>
      let s :=
        {| token := Some (authApi.token response);
           user := Some (authApi.user response);
           loading := loading s |} in
      let b :=
        {| client.localStorage :=
             <["token" := authApi.token response]> (client.localStorage b);
           client.href := client.href b |} in
      ({| store := setLoading false s; browser := b |}, Ok tt)
  | (b, Err error) =>
      ({| store := setLoading false s; browser := b |}, Err error)
  end.

Definition logout (w : World) : World :=
  {| store :=
       {| token := None; user := None; loading := loading (store w) |};
     browser :=
       {| client.localStorage :=
            delete "token" (client.localStorage (browser w));
          client.href := client.href (browser w) |} |}.

(** A page load: the application boots and the store is set up from the
    browser state. Assigning [window.location.href] ends in one. *)
Definition pageLoad (b : client.Browser) : World :=
  {| store := setup b; browser := b |}.

(** A request other than the store's own comes back rejected: the
    interceptor runs on the browser state, the store instance is not in
    its reach. *)
Definition rejected (status : option Z) (w : World) : World :=
  {| store := store w; browser := client.onRejected status (browser w) |}.
End useAuthStore.

(** ** [middlewares/auth.go], continued, and the route groups of
       [routes/routes.go] *)
Module routes.

Section Routes.
Variable hmac : jwt.SigningMethod -> string -> utils.Claims -> string.

(** [OptionalAuth]: the same header handling as [AuthMiddleware], but the
    request always goes on. *)
Definition OptionalAuth (now : Time) (authHeader : middlewares.Authorization)
    (locals : gmap string middlewares.any) : middlewares.Handled :=
  match authHeader with
  | middlewares.NoHeader => middlewares.Next locals
  | middlewares.OtherParts => middlewares.Next locals
  | middlewares.TwoParts scheme token =>
      if String.eqb scheme "Bearer" then
        match utils.ValidateJWT hmac now token with
        | Ok claims =>
            middlewares.Next
              (<["role" := middlewares.AnyString (utils.Role claims)]>
               (<["email" := middlewares.AnyString (utils.Email claims)]>
                (<["user_id" := middlewares.AnyString (utils.UserID claims)]>
                 locals)))
        | Err _ => middlewares.Next locals
        end
      else middlewares.Next locals
  end.

(** Two handlers of one group: the second runs when the first calls
    [c.Next()], on the locals the first left. *)
Definition chain (first second : gmap string middlewares.any
                                 -> middlewares.Handled)
    (locals : gmap string middlewares.any) : middlewares.Handled :=
  match first locals with
  | middlewares.Next ctx => second ctx
  | middlewares.Reply status message => middlewares.Reply status message
  end.

(** [v1.Group("", middlewares.AuthMiddleware())] *)
Definition protected (now : Time) (authHeader : middlewares.Authorization)
  : gmap string middlewares.any -> middlewares.Handled :=
  middlewares.AuthMiddleware hmac now authHeader.

(** [v1.Group("/admin", middlewares.AuthMiddleware(),
    middlewares.AdminOnly())] *)
Definition admin (now : Time) (authHeader : middlewares.Authorization)
  : gmap string middlewares.any -> middlewares.Handled :=
  chain (middlewares.AuthMiddleware hmac now authHeader)
    middlewares.AdminOnly.
End Routes.
End routes.

(** ** Go's [int] and [int64]: 64-bit two's complement *)
Module goInt.

Definition wrap (z : Z) : Z := (z + 2 ^ 63) mod 2 ^ 64 - 2 ^ 63.

Definition divideByZero : string :=
  "runtime error: integer divide by zero".

(** [x / y]: truncated towards zero; [None] is the run-time panic. *)
Definition div (x y : Z) : option Z :=
  if y =? 0 then None else Some (wrap (Z.quot x y)).

(** [x % y]: the sign of the dividend. *)
Definition rem (x y : Z) : option Z :=
  if y =? 0 then None else Some (Z.rem x y).

Definition sub (x y : Z) : Z := wrap (x - y).
Definition add (x y : Z) : Z := wrap (x + y).
Definition mul (x y : Z) : Z := wrap (x * y).
End goInt.

(** ** [utils/response.go]: [PaginatedResponse] *)
Module response.

Record Pagination := {
  page : Z;
  page_size : Z;
  total_items : Z;
  total_pages : Z
}.

Inductive Paginated (D : Type) :=
| Responded (status : Z) (message : string) (data : D)
    (pagination : Pagination)
| Panicked (msg : string).
Arguments Responded {D} status message data pagination.
Arguments Panicked {D} msg.

Definition PaginatedResponse {D} (data : D) (page pageSize total : Z)
  : Paginated D :=
  match goInt.div total pageSize, goInt.rem total pageSize with
  | Some quotient, Some remainder =>
      let totalPages :=
        if negb (remainder =? 0) then goInt.add quotient 1 else quotient in
      Responded fiber.StatusOK "Data fetched successfully" data
        {| page := page;
           page_size := pageSize;
           total_items := total;
           total_pages := totalPages |}
  | _, _ => Panicked goInt.divideByZero
  end.
End response.

(** ** [models/product.go] *)
Module product.
Section Product.
(** Go's [float64]; no method of the model reads the price. *)
Variable float64 : Type.

Record Product := {
  ID : string;
  Name : string;
  Description : string;
  Price : float64;
  Stock : Z;
  CategoryID : string;
  IsActive : bool
}.

Definition IsAvailable (p : Product) : bool :=
  IsActive p && (0 <? Stock p).

(** The receiver is a pointer: the product after the call, and the error
    ([None] is [nil]). *)
Definition ReduceStock (p : Product) (quantity : Z)
  : Product * option string :=
  if Stock p <? quantity then (p, Some "insufficient stock")
  else
    ({| ID := ID p;
        Name := Name p;
        Description := Description p;
        Price := Price p;
        Stock := goInt.sub (Stock p) quantity;
        CategoryID := CategoryID p;
        IsActive := IsActive p |},
     None).
End Product.
Arguments ID {float64} p.
Arguments Name {float64} p.
Arguments Description {float64} p.
Arguments Price {float64} p.
Arguments Stock {float64} p.
Arguments CategoryID {float64} p.
Arguments IsActive {float64} p.
Arguments IsAvailable {float64} p.
Arguments ReduceStock {float64} p quantity.
End product.

(** ** [config/config.go] *)
Module config.

Record Config := {
  Port : string;
  Environment : string;
  DBHost : string;
  DBPort : string;
  DBUser : string;
  DBPassword : string;
  DBName : string;
  JWTSecret : string;
  PaymentAPIKey : string
}.

(** [os.Getenv]: an unset variable reads as the empty string. *)
Definition Getenv (environ : gmap string string) (key : string) : string :=
  default "" (environ !! key).

Definition getEnv (environ : gmap string string) (key defaultValue : string)
  : string :=
  let value := Getenv environ key in
  if negb (String.eqb value "") then value else defaultValue.

(** [godotenv.Load()]: the variables of the [.env] file are set unless the
    process has them already; [dotenv] is [None] when the file cannot be
    read, which is the error [LoadConfig] logs. *)
Definition godotenvLoad (dotenv : option (gmap string string))
    (environ : gmap string string) : gmap string string * bool :=
  match dotenv with
  | Some file => (environ ∪ file, true)
  | None => (environ, false)
  end.

(** The lines logged, and the configuration unless [log.Fatal] ended the
    process. *)
Definition LoadConfig (dotenv : option (gmap string string))
    (environ : gmap string string) : list string * option Config :=
  let '(environ, loaded) := godotenvLoad dotenv environ in
  let log1 :=
    if loaded then []
    else ["⚠️  No .env file found, using system environment variables"] in
  let config :=
    {| Port := getEnv environ "PORT" "3000";
       Environment := getEnv environ "ENVIRONMENT" "development";
       DBHost := getEnv environ "DB_HOST" "localhost";
       DBPort := getEnv environ "DB_PORT" "5432";
       DBUser := getEnv environ "DB_USER" "postgres";
       DBPassword := getEnv environ "DB_PASSWORD" "";
       DBName := getEnv environ "DB_NAME" "myapp";
       JWTSecret := getEnv environ "JWT_SECRET" "your-secret-key";
       PaymentAPIKey := getEnv environ "PAYMENT_API_KEY" "" |} in
  if String.eqb (DBPassword config) "" then
    ((log1 ++ ["❌ DB_PASSWORD is required"])%list, None)
  else
    let log2 :=
      if String.eqb (JWTSecret config) "your-secret-key" then
        ["⚠️  WARNING: Using default JWT secret. Change this in production!"]
      else [] in
    ((log1 ++ log2)%list, Some config).
End config.

(** ** The other [gorm] statements of the user repository *)
Module query.

Definition invalidUUID : gorm.error :=
  gorm.ErrOther "invalid input syntax for type uuid".

Definition duplicateKey : gorm.error :=
  gorm.ErrOther "duplicate key value violates unique constraint".

Definition setID (id : string) (u : models.User) : models.User :=
  {| models.ID := id;
     models.Email := models.Email u;
     models.Name := models.Name u;
     models.Password := models.Password u;
     models.Role := models.Role u;
     models.IsActive := models.IsActive u |}.

(** A new row takes its place in primary-key order. *)
Fixpoint insertRow (u : models.User) (rows : list models.User)
  : list models.User :=
  match rows with
  | [] => [u]
  | r :: rest =>
      if String.ltb (models.ID u) (models.ID r) then u :: r :: rest
      else r :: insertRow u rest
  end.

Section Query.
(** PostgreSQL's reading of a text as a [uuid], in the canonical spelling
    that [models.ID] holds; [None] when the text is not a uuid. *)
Variable uuidText : string -> option string.

(** [db.First(&user, "id = ?", id).Error] *)
Definition FirstByID (db : gorm.DB) (id : string)
  : result gorm.error models.User :=
  match gorm.fault db with
  | Some msg => Err (gorm.ErrOther msg)
  | None =>
      match uuidText id with
      | None => Err invalidUUID
      | Some key =>
          match find (fun u => String.eqb (models.ID u) key)
                  (gorm.users db) with
          | Some u => Ok u
          | None => Err gorm.ErrRecordNotFound
          end
      end
  end.

(** [db.Delete(&models.User{}, "id = ?", id).Error]: the model has no
    deletion timestamp, the rows are removed. *)
Definition DeleteByID (db : gorm.DB) (id : string)
  : result gorm.error gorm.DB :=
  match gorm.fault db with
  | Some msg => Err (gorm.ErrOther msg)
  | None =>
      match uuidText id with
      | None => Err invalidUUID
      | Some key =>
          Ok {| gorm.users :=
                  List.filter
                    (fun u => negb (String.eqb (models.ID u) key))
                    (gorm.users db);
                gorm.fault := None |}
      end
  end.
End Query.

(** [db.Create(user).Error], with the [BeforeCreate] hook of
    [models/user.go], which replaces the id by [hookID], a fresh
    [uuid.New()]. The primary key and the unique index on the e-mail
    refuse a duplicate. The user as the hook left it is returned with the
    table. *)
Definition Create (db : gorm.DB) (user : models.User) (hookID : string)
  : result gorm.error (gorm.DB * models.User) :=
  let user := setID hookID user in
  match gorm.fault db with
  | Some msg => Err (gorm.ErrOther msg)
  | None =>
      if existsb
           (fun r =>
              String.eqb (models.ID r) (models.ID user) ||
              String.eqb (models.Email r) (models.Email user))
           (gorm.users db)
      then Err duplicateKey
      else
        Ok ({| gorm.users := insertRow user (gorm.users db);
               gorm.fault := None |},
            user)
  end.

(** [db.Save(user).Error]: every column of the row with the user's id is
    written; a user whose id has no row is inserted. *)
Definition Save (db : gorm.DB) (user : models.User)
  : result gorm.error gorm.DB :=
  match gorm.fault db with
  | Some msg => Err (gorm.ErrOther msg)
  | None =>
      if existsb
           (fun r =>
              negb (String.eqb (models.ID r) (models.ID user)) &&
              String.eqb (models.Email r) (models.Email user))
           (gorm.users db)
      then Err duplicateKey
      else if existsb (fun r => String.eqb (models.ID r) (models.ID user))
                (gorm.users db)
      then
        Ok {| gorm.users :=
                map (fun r =>
                       if String.eqb (models.ID r) (models.ID user)
                       then user else r)
                  (gorm.users db);
              gorm.fault := None |}
      else
        Ok {| gorm.users := insertRow user (gorm.users db);
              gorm.fault := None |}
  end.

(** [query.Find(&users).Error] under the [Where] conditions given, rows in
    the table's order. *)
Definition Find (db : gorm.DB) (conditions : list (models.User -> bool))
  : result gorm.error (list models.User) :=
  match gorm.fault db with
  | Some msg => Err (gorm.ErrOther msg)
  | None =>
      Ok (List.filter (fun u => forallb (fun c => c u) conditions)
            (gorm.users db))
  end.

(** [db.Model(&models.User{}).Count(&total)]; [total] keeps its zero when
    the statement fails. *)
Definition Count (db : gorm.DB) : Z :=
  match gorm.fault db with
  | Some _ => 0
  | None => Z.of_nat (length (gorm.users db))
  end.

(** [db.Offset(offset).Limit(limit).Find(&users).Error]: an offset that is
    not positive and a negative limit are left out of the statement. *)
Definition OffsetLimitFind (db : gorm.DB) (offset limit : Z)
  : result gorm.error (list models.User) :=
  match gorm.fault db with
  | Some msg => Err (gorm.ErrOther msg)
  | None =>
      let rows := gorm.users db in
      let rows := if 0 <? offset then drop (Z.to_nat offset) rows else rows in
      let rows := if 0 <=? limit then take (Z.to_nat limit) rows else rows in
      Ok rows
  end.
End query.

(** ** [models/user.go]: the business methods *)
Module user.

Definition IsAdmin (u : models.User) : bool :=
  String.eqb (models.Role u) "admin".

Definition CanDelete (u : models.User) : bool := negb (IsAdmin u).
End user.

(** ** [repositories/user_repository.go], continued *)
Module userRepository.

Definition Create (db : gorm.DB) (user : models.User) (hookID : string)
  : result gorm.error (gorm.DB * models.User) :=
  query.Create db user hookID.

Section Repository.
Variable uuidText : string -> option string.

Definition GetByID (db : gorm.DB) (id : string)
  : result gorm.error models.User :=
  query.FirstByID uuidText db id.

Definition Delete (db : gorm.DB) (id : string)
  : result gorm.error gorm.DB :=
  query.DeleteByID uuidText db id.
End Repository.

(** The filter is Go's [map[string]interface{}]: a condition is added for
    a [role] that is a non-empty string and for an [is_active] that is a
    bool. The slice is empty when the statement fails. *)
Definition GetAll (db : gorm.DB) (filter : gmap string middlewares.any)
  : list models.User * option gorm.error :=
  let byRole :=
    match filter !! "role" with
    | Some (middlewares.AnyString role) =>
        if negb (String.eqb role "") then
          [fun u => String.eqb (models.Role u) role]
        else []
    | _ => []
    end in
  let byActive :=
    match filter !! "is_active" with
    | Some (middlewares.AnyBool isActive) =>
        [fun u => Bool.eqb (models.IsActive u) isActive]
    | _ => []
    end in
  match query.Find db (byRole ++ byActive)%list with
  | Ok users => (users, None)
  | Err err => ([], Some err)
  end.

Definition GetWithPagination (db : gorm.DB) (page pageSize : Z)
  : list models.User * Z * option gorm.error :=
  let total := query.Count db in
  let offset := goInt.mul (goInt.sub page 1) pageSize in
  match query.OffsetLimitFind db offset pageSize with
  | Ok users => (users, total, None)
  | Err err => ([], total, Some err)
  end.

Definition Update (db : gorm.DB) (user : models.User)
  : result gorm.error gorm.DB :=
  query.Save db user.
End userRepository.

(** ** [handlers/user_handler.go] *)
Module userHandler.

Record CreateInput := {
  Email : string;
  Name : string;
  Password : string
}.

(** [IsActive] is a pointer in Go: [None] when the body leaves it out. *)
Record UpdateInput := {
  NewName : string;
  NewIsActive : option bool
}.

Inductive Body :=
| ErrorBody (message : string)
| ValidationBody (errors : list handlers.FieldError)
| UserBody (message : string) (user : models.User)
| UsersBody (message : string) (users : list models.User) (total : Z)
| NoData (message : string).

Record Response := {
  status : Z;
  body : Body
}.

Definition StatusCreated : Z := 201.
Definition StatusNotFound : Z := 404.
Definition StatusConflict : Z := 409.

Definition ErrorResponse (code : Z) (message : string) : Response :=
  {| status := code; body := ErrorBody message |}.

(** [user.Password = ""] *)
Definition hidePassword (u : models.User) : models.User :=
  {| models.ID := models.ID u;
     models.Email := models.Email u;
     models.Name := models.Name u;
     models.Password := "";
     models.Role := models.Role u;
     models.IsActive := models.IsActive u |}.

Section UserHandler.
Variable uuidText : string -> option string.
(** [uuid.Parse(id)] succeeds. *)
Variable uuidParse : string -> bool.
(** The validator's [email] tag. *)
Variable isEmail : string -> bool.
(** [utf8.RuneCountInString], which the validator's [min] compares. *)
Variable RuneCountInString : string -> Z.
(** [bcrypt.GenerateFromPassword(password, bcrypt.DefaultCost)] under the
    salt it draws. *)
Variable GenerateFromPassword : string -> string -> result string string.

(** Tags [required,email] on [Email], [required] on [Name] and
    [required,min=6] on [Password]. *)
Definition ValidateStruct (input : CreateInput) : list handlers.FieldError :=
  ((if String.eqb (Email input) "" then
      [{| handlers.Field := "Email"; handlers.Tag := "required" |}]
    else if negb (isEmail (Email input)) then
      [{| handlers.Field := "Email"; handlers.Tag := "email" |}]
    else []) ++
   (if String.eqb (Name input) "" then
      [{| handlers.Field := "Name"; handlers.Tag := "required" |}]
    else []) ++
   (if String.eqb (Password input) "" then
      [{| handlers.Field := "Password"; handlers.Tag := "required" |}]
    else if RuneCountInString (Password input) <? 6 then
      [{| handlers.Field := "Password"; handlers.Tag := "min" |}]
    else []))%list.

(** [requestBody] is the parsed body, or the text of the parser's error;
    [handlerID] and [hookID] are the two [uuid.New()] of a creation, [salt]
    is bcrypt's. The table after the call is returned with the
    response. *)
Definition Create (db : gorm.DB) (handlerID hookID salt : string)
    (requestBody : result string CreateInput) : Response * gorm.DB :=
  match requestBody with
  | Err text =>
      (ErrorResponse fiber.StatusBadRequest ("Invalid input: " +:+ text), db)
  | Ok input =>
      match ValidateStruct input with
      | _ :: _ as errs =>
          ({| status := fiber.StatusBadRequest;
              body := ValidationBody errs |}, db)
      | [] =>
          match fst (repositories.GetByEmail db (Email input)) with
          | Some _ => (ErrorResponse StatusConflict "Email already exists", db)
          | None =>
              match GenerateFromPassword salt (Password input) with
              | Err _ =>
                  (ErrorResponse fiber.StatusInternalServerError
                     "Failed to process password", db)
              | Ok hashedPassword =>
                  let user :=
                    {| models.ID := handlerID;
                       models.Email := Email input;
                       models.Name := Name input;
                       models.Password := hashedPassword;
                       models.Role := "user";
                       models.IsActive := true |} in
                  match userRepository.Create db user hookID with
                  | Err _ =>
                      (ErrorResponse fiber.StatusInternalServerError
                         "Failed to create user", db)
                  | Ok (db', user) =>
                      ({| status := StatusCreated;
                          body :=
                            UserBody "User created successfully"
                              (hidePassword user) |}, db')
                  end
              end
          end
      end
  end.

Definition GetByID (db : gorm.DB) (id : string) : Response :=
  if negb (uuidParse id) then
    ErrorResponse fiber.StatusBadRequest "Invalid user ID"
  else
    match userRepository.GetByID uuidText db id with
    | Err _ => ErrorResponse StatusNotFound "User not found"
    | Ok user =>
        {| status := fiber.StatusOK;
           body := UserBody "User fetched successfully" (hidePassword user) |}
    end.

(** [role] and [isActive] are the query parameters, empty when absent. *)
Definition GetAll (db : gorm.DB) (role isActive : string) : Response :=
  let filter : gmap string middlewares.any := ∅ in
  let filter :=
    if negb (String.eqb role "") then
      <["role" := middlewares.AnyString role]> filter
    else filter in
  let filter :=
    if String.eqb isActive "true" then
      <["is_active" := middlewares.AnyBool true]> filter
    else if String.eqb isActive "false" then
      <["is_active" := middlewares.AnyBool false]> filter
    else filter in
  match userRepository.GetAll db filter with
  | (_, Some _) =>
      ErrorResponse fiber.StatusInternalServerError "Failed to fetch users"
  | (users, None) =>
      let users := map hidePassword users in
      {| status := fiber.StatusOK;
         body :=
           UsersBody "Users fetched successfully" users
             (Z.of_nat (length users)) |}
  end.

(** [requestBody] is [None] when [c.BodyParser] fails. *)
Definition Update (db : gorm.DB) (id : string)
    (requestBody : option UpdateInput) : Response * gorm.DB :=
  match userRepository.GetByID uuidText db id with
  | Err _ => (ErrorResponse StatusNotFound "User not found", db)
  | Ok user =>
      match requestBody with
      | None => (ErrorResponse fiber.StatusBadRequest "Invalid input", db)
      | Some input =>
          let user :=
            {| models.ID := models.ID user;
               models.Email := models.Email user;
               models.Name :=
                 if negb (String.eqb (NewName input) "") then NewName input
                 else models.Name user;
               models.Password := models.Password user;
               models.Role := models.Role user;
               models.IsActive :=
                 match NewIsActive input with
                 | Some isActive => isActive
                 | None => models.IsActive user
                 end |} in
          match userRepository.Update db user with
          | Err _ =>
              (ErrorResponse fiber.StatusInternalServerError
                 "Failed to update user", db)
          | Ok db' =>
              ({| status := fiber.StatusOK;
                  body :=
                    UserBody "User updated successfully"
                      (hidePassword user) |}, db')
          end
      end
  end.

Definition Delete (db : gorm.DB) (id : string) : Response * gorm.DB :=
  match userRepository.GetByID uuidText db id with
  | Err _ => (ErrorResponse StatusNotFound "User not found", db)
  | Ok user =>
      if user.IsAdmin user then
        (ErrorResponse fiber.StatusForbidden "Cannot delete admin user", db)
      else
        match userRepository.Delete uuidText db id with
        | Err _ =>
            (ErrorResponse fiber.StatusInternalServerError
               "Failed to delete user", db)
        | Ok db' =>
            ({| status := fiber.StatusOK;
                body := NoData "User deleted successfully" |}, db')
        end
  end.
End UserHandler.
End userHandler.

(** ** [src/router/index.ts]: the routes and the auth guard *)
Module router.

(** A route record; [requiresAuth] is [meta.requiresAuth], false where the
    record has no meta. *)
Record Route := {
  path : string;
  name : string;
  requiresAuth : bool
}.

Definition home : Route :=
  {| path := "/"; name := "home"; requiresAuth := false |}.
Definition users : Route :=
  {| path := "/users"; name := "users"; requiresAuth := true |}.
Definition products : Route :=
  {| path := "/products"; name := "products"; requiresAuth := false |}.
Definition login : Route :=
  {| path := "/login"; name := "login"; requiresAuth := false |}.

Definition routes : list Route := [home; users; products; login].

(** What the guard hands to [next]. *)
Inductive Next :=
| Proceed
| RedirectTo (location : string).

(** [router.beforeEach]: [to] is the route the navigation resolved to, the
    store is the auth store of the page. *)
Definition beforeEach (to : Route) (authStore : useAuthStore.State) : Next :=
  if requiresAuth to && negb (useAuthStore.isAuthenticated authStore) then
    RedirectTo "/login"
  else Proceed.

(** A navigation: the guard runs on the target, and again on the login
    route when it redirects there. The result is the route shown, [None]
    while the guard keeps redirecting. *)
Definition navigate (to : Route) (authStore : useAuthStore.State)
  : option Route :=
  match beforeEach to authStore with
  | Proceed => Some to
  | RedirectTo _ =>
      match beforeEach login authStore with
      | Proceed => Some login
      | RedirectTo _ => None
      end
  end.
End router.

(** ** [src/api/users] and [src/stores/users.ts] *)
Module useUsersStore.

Record User := {
  id : string;
  name : string;
  email : string;
  avatar : option string
}.

(** [Omit<User, 'id'>] *)
Record UserData := {
  newName : string;
  newEmail : string;
  newAvatar : option string
}.

Record State := {
  users : list User;
  loading : bool;
  error : option string
}.

Record World := {
  store : State;
  browser : client.Browser
}.

(** [computed(() => users.value.length)] *)
Definition total (s : State) : Z := Z.of_nat (length (users s)).

Section Store.
(** [e.message] of an axios error. *)
Variable message : client.AxiosError -> string.

(** The server's side of [userApi.getAll], [userApi.create] and
    [userApi.delete]. *)
Variable usersServer : client.Request unit -> client.Exchange (list User).
Variable createServer : client.Request UserData -> client.Exchange User.
Variable deleteServer : client.Request unit -> client.Exchange unit.

(** [client.get(url)] and [client.delete(url)]: a request without a body,
    through the interceptors of the client. *)
Definition bodyless {T} (server : client.Request unit -> client.Exchange T)
    (path : string) (b : client.Browser)
  : client.Browser * result client.AxiosError T :=
  let config :=
    client.onRequest b
      {| client.url := path; client.data := tt; client.headers := ∅ |} in
  match server config with
  | client.Fulfilled responseData => (b, Ok responseData)
  | client.Failed status =>
      (client.onRejected status b,
       Err {| client.responseStatus := status |})
  end.

Definition fetchAll (w : World) : World * result client.AxiosError unit :=
  let s := {| users := users (store w); loading := true; error := None |} in
  match bodyless usersServer "/users" (browser w) with
  | (b, Ok fetched) =>
      ({| store :=
            {| users := fetched; loading := false; error := error s |};
          browser := b |}, Ok tt)
  | (b, Err e) =>
      ({| store :=
            {| users := users s; loading := false;
               error := Some (message e) |};
          browser := b |}, Err e)
  end.

Definition create (userData : UserData) (w : World)
  : World * result client.AxiosError User :=
  let s := store w in
  match client.post createServer "/users" userData (browser w) with
  | (b, Ok newUser) =>
      ({| store :=
            {| users := (users s ++ [newUser])%list; loading := false;
               error := error s |};
          browser := b |}, Ok newUser)
  | (b, Err e) =>
      ({| store :=
            {| users := users s; loading := false;
               error := Some (message e) |};
          browser := b |}, Err e)
  end.

Definition remove (userId : string) (w : World)
  : World * result client.AxiosError unit :=
  let s := store w in
  match bodyless deleteServer ("/users/" +:+ userId) (browser w) with
  | (b, Ok _) =>
      ({| store :=
            {| users :=
                 List.filter (fun u => negb (String.eqb (id u) userId))
                   (users s);
               loading := false;
               error := error s |};
          browser := b |}, Ok tt)
  | (b, Err e) =>
      ({| store :=
            {| users := users s; loading := false;
               error := Some (message e) |};
          browser := b |}, Err e)
  end.
End Store.
End useUsersStore.

(** ** [src/mappers/user.mapper.ts] *)
Module UserMapper.

Record UserDto := {
  id : string;
  first_name : string;
  last_name : string;
  email : string;
  phone : string;
  created_at : string;
  updated_at : string
}.

(** [Partial<UserDto>] with the four fields [toDto] fills. *)
Record PartialUserDto := {
  dto_first_name : string;
  dto_last_name : string;
  dto_email : string;
  dto_phone : string
}.

Definition space : Ascii.ascii := Ascii.ascii_of_nat 32.

(** [s.split(' ')]: the pieces between the spaces, never an empty list. *)
Fixpoint split (s : string) : list string :=
  match s with
  | EmptyString => [EmptyString]
  | String c rest =>
      if Ascii.eqb c space then EmptyString :: split rest
      else
        match split rest with
        | piece :: pieces => String c piece :: pieces
        | [] => [String c EmptyString]
        end
  end.

(** [parts.join(' ')] *)
Fixpoint join (parts : list string) : string :=
  match parts with
  | [] => EmptyString
  | [part] => part
  | part :: rest => part +:+ String space (join rest)
  end.

Section Mapper.
(** JavaScript's [Date]. *)
Variable Date : Type.
(** [new Date(text)] *)
Variable newDate : string -> Date.

Record User := {
  userId : string;
  fullName : string;
  userEmail : string;
  userPhone : string;
  createdAt : Date
}.

Definition toDomain (dto : UserDto) : User :=
  {| userId := id dto;
     fullName := first_name dto +:+ String space (last_name dto);
     userEmail := email dto;
     userPhone := phone dto;
     createdAt := newDate (created_at dto) |}.

Definition toDomainList (dtos : list UserDto) : list User :=
  map toDomain dtos.

Definition toDto (domain : User) : PartialUserDto :=
  match split (fullName domain) with
  | firstName :: lastNameParts =>
      {| dto_first_name := firstName;
         dto_last_name := join lastNameParts;
         dto_email := userEmail domain;
         dto_phone := userPhone domain |}
  | [] =>
      (* unreachable: [split] never returns an empty array *)
      {| dto_first_name := EmptyString;
         dto_last_name := EmptyString;
         dto_email := userEmail domain;
         dto_phone := userPhone domain |}
  end.
End Mapper.
Arguments userId {Date} u.
Arguments fullName {Date} u.
Arguments userEmail {Date} u.
Arguments userPhone {Date} u.
Arguments createdAt {Date} u.
Arguments toDomain {Date} newDate dto.
Arguments toDomainList {Date} newDate dtos.
Arguments toDto {Date} domain.
End UserMapper.

(** ** Vocabulary of the statements *)

(** The claims a token issued at instant [now] carries. *)
Definition issuedClaims (now : Time) (userID email role : string)
  : utils.Claims :=
  {| utils.UserID := userID;
     utils.Email := email;
     utils.Role := role;
     utils.RegisteredClaims :=
       {| jwt.ExpiresAt := Some (now + hours24);
          jwt.IssuedAt := Some now;
          jwt.NotBefore := Some now |} |}.

(** The request [useAuthStore.login] sends, after the request
    interceptor. *)
Definition loginRequest (credentials : authApi.LoginCredentials)
    (b : client.Browser) : client.Request authApi.LoginCredentials :=
  client.onRequest b
    {| client.url := "/auth/login";
       client.data := credentials;
       client.headers := ∅ |}.

(** How [LoadConfig] resolves one variable: the process environment first,
    also when it holds the empty string; then the [.env] file; an empty
    result gives way to the default. *)
Definition resolved (dotenv : option (gmap string string))
    (environ : gmap string string) (key defaultValue : string) : string :=
  let value :=
    match environ !! key with
    | Some v => v
    | None =>
        match dotenv with
        | Some file => default "" (file !! key)
        | None => ""
        end
    end in
  if String.eqb value "" then defaultValue else value.

(** Whether a string has a space in it. *)
Fixpoint containsSpace (s : string) : bool :=
  match s with
  | EmptyString => false
  | String c rest => Ascii.eqb c UserMapper.space || containsSpace rest
  end.

(** The full dto a server answers with when it stores the fields [toDto]
    sent as they are. *)
Definition echoed (sent : UserMapper.PartialUserDto)
    (id created_at updated_at : string) : UserMapper.UserDto :=
  {| UserMapper.id := id;
     UserMapper.first_name := UserMapper.dto_first_name sent;
     UserMapper.last_name := UserMapper.dto_last_name sent;
     UserMapper.email := UserMapper.dto_email sent;
     UserMapper.phone := UserMapper.dto_phone sent;
     UserMapper.created_at := created_at;
     UserMapper.updated_at := updated_at |}.

(** ** Concrete instances of the third-party primitives, for the examples *)
Module Example.

(** A keyed tag over the identity fields of the claims. *)
Definition hmac (m : jwt.SigningMethod) (key : string) (c : utils.Claims)
  : string :=
  key +:+ "|" +:+ utils.UserID c +:+ "|" +:+ utils.Email c +:+ "|" +:+
  utils.Role c.

(** Hashes are the password behind a fixed prefix. *)
Definition CompareHashAndPassword (hash password : string) : bool :=
  String.eqb hash ("$2a$" +:+ password).

Definition isEmail (s : string) : bool :=
  existsb (Ascii.eqb (Ascii.ascii_of_nat 64)) (String.list_ascii_of_string s).

Definition alice : models.User :=
  {| models.ID := "7f3c";
     models.Email := "alice@example.com";
     models.Name := "Alice";
     models.Password := "$2a$correctpw";
     models.Role := "user";
     models.IsActive := true |}.

Definition bob : models.User :=
  {| models.ID := "91aa";
     models.Email := "bob@example.com";
     models.Name := "Bob";
     models.Password := "$2a$hunter2";
     models.Role := "user";
     models.IsActive := false |}.

Definition db : gorm.DB :=
  {| gorm.users := [alice; bob]; gorm.fault := None |}.

(** A server that accepts every login with the given token. *)
Definition accepting (tok : string)
    (_ : client.Request authApi.LoginCredentials)
  : client.Exchange authApi.AuthResponse :=
  client.Fulfilled
    {| authApi.token := tok;
       authApi.user :=
         {| authApi.id := "7f3c"; authApi.name := "Alice";
            authApi.userEmail := "alice@example.com" |} |}.

(** A server that answers every login with the given failure. *)
Definition failing (status : option Z)
    (_ : client.Request authApi.LoginCredentials)
  : client.Exchange authApi.AuthResponse :=
  client.Failed status.

Definition credentials : authApi.LoginCredentials :=
  {| authApi.email := "alice@example.com";
     authApi.password := "correctpw" |}.

(** A browser that holds a persisted token. *)
Definition signedIn : client.Browser :=
  {| client.localStorage := {["token" := "t0"]}; client.href := "/users" |}.

(** A browser that holds none. *)
Definition signedOut : client.Browser :=
  {| client.localStorage := ∅; client.href := "/login" |}.

(** A browser whose persisted token is the empty string. *)
Definition emptyToken : client.Browser :=
  {| client.localStorage := {["token" := ""]}; client.href := "/" |}.
End Example.

(** ** Concrete instances for the examples of the further properties *)
Module Sample.

(** The canonical spelling is the text itself. *)
Definition uuidText (s : string) : option string := Some s.

Definition RuneCountInString (s : string) : Z :=
  Z.of_nat (String.length s).

(** The hash [Example.CompareHashAndPassword] accepts. *)
Definition GenerateFromPassword (salt password : string)
  : result string string :=
  Ok ("$2a$" +:+ password).

Definition root : models.User :=
  {| models.ID := "0001";
     models.Email := "root@example.com";
     models.Name := "Root";
     models.Password := "$2a$toor";
     models.Role := "admin";
     models.IsActive := true |}.

Definition carol : models.User :=
  {| models.ID := "a111";
     models.Email := "carol@example.com";
     models.Name := "Carol";
     models.Password := "$2a$s3cret!";
     models.Role := "user";
     models.IsActive := true |}.

Definition db : gorm.DB :=
  {| gorm.users := [root; carol]; gorm.fault := None |}.

Definition registration : userHandler.CreateInput :=
  {| userHandler.Email := "dave@example.com";
     userHandler.Name := "Dave";
     userHandler.Password := "p4ssword" |}.

Definition widget : product.Product unit :=
  {| product.ID := "c001";
     product.Name := "Widget";
     product.Description := "";
     product.Price := tt;
     product.Stock := 5;
     product.CategoryID := "d001";
     product.IsActive := true |}.

(** A [.env] file, and a process environment that exports [PORT] empty. *)
Definition dotenv : gmap string string :=
  {["DB_PASSWORD" := "s3cret"; "PORT" := "8080"]}.

Definition environ : gmap string string := {["PORT" := ""]}.
(** A users store with three users listed, and the two ways the server
    can answer a delete. *)
Definition message (e : client.AxiosError) : string :=
  match client.responseStatus e with
  | Some _ => "Request failed"
  | None => "Network Error"
  end.

Definition ann : useUsersStore.User :=
  {| useUsersStore.id := "u1";
     useUsersStore.name := "Ann";
     useUsersStore.email := "ann@example.com";
     useUsersStore.avatar := None |}.

Definition ben : useUsersStore.User :=
  {| useUsersStore.id := "u2";
     useUsersStore.name := "Ben";
     useUsersStore.email := "ben@example.com";
     useUsersStore.avatar := None |}.

Definition cat : useUsersStore.User :=
  {| useUsersStore.id := "u3";
     useUsersStore.name := "Cat";
     useUsersStore.email := "cat@example.com";
     useUsersStore.avatar := None |}.

Definition listed : useUsersStore.World :=
  {| useUsersStore.store :=
       {| useUsersStore.users := [ann; ben; cat];
          useUsersStore.loading := false;
          useUsersStore.error := Some "Network Error" |};
     useUsersStore.browser :=
       {| client.localStorage := {["token" := "t0k3n"]};
          client.href := "/users" |} |}.

Definition deleting (config : client.Request unit) : client.Exchange unit :=
  client.Fulfilled tt.

Definition refusing (config : client.Request unit) : client.Exchange unit :=
  client.Failed (Some 404).
End Sample.

(** * Properties *)

(** ** Credential codec: [GenerateJWT] and [ValidateJWT] *)
Section Codec.
Variable hmac : jwt.SigningMethod -> string -> utils.Claims -> string.

Lemma GenerateJWT_eq now userID email role :
  utils.GenerateJWT hmac now userID email role =
  Ok (jwt.Compact jwt.SigningMethodHS256
        (issuedClaims now userID email role)
        (hmac jwt.SigningMethodHS256 utils.jwtSecret
           (issuedClaims now userID email role))).
Proof. reflexivity. Qed.

Lemma Validate_nil rc now :
  jwt.Validate rc now = [] <->
  jwt.verifyExpiresAt rc now = true /\ jwt.verifyNotBefore rc now = true.
Proof.
  unfold jwt.Validate.
  destruct (jwt.verifyExpiresAt rc now), (jwt.verifyNotBefore rc now);
    simpl; split; intros Hv; try discriminate; try easy;
    destruct Hv; discriminate.
Qed.

(** [ValidateJWT] accepts exactly the parseable tokens whose signature
    verifies under [jwtSecret] and whose claims validate. *)
Lemma ValidateJWT_ok_iff now alg c sig :
  is_ok (utils.ValidateJWT hmac now (jwt.Compact alg c sig)) = true <->
  jwt.Verify hmac alg c sig utils.jwtSecret = true /\
  jwt.Validate (utils.RegisteredClaims c) now = [].
Proof.
  unfold utils.ValidateJWT, jwt.ParseWithClaims, jwt.GetRegistered,
    utils.Claims_ClaimsI.
  destruct (jwt.Verify hmac alg c sig utils.jwtSecret); simpl.
  - destruct (jwt.Validate (utils.RegisteredClaims c) now); simpl.
    + tauto.
    + split; [discriminate | intros [_ Hv]; discriminate].
  - split; [discriminate | intros [Hv _]; discriminate].
Qed.

Lemma ValidateJWT_ok_claims now alg c sig :
  is_ok (utils.ValidateJWT hmac now (jwt.Compact alg c sig)) = true ->
  utils.ValidateJWT hmac now (jwt.Compact alg c sig) = Ok c.
Proof.
  unfold utils.ValidateJWT, jwt.ParseWithClaims, jwt.GetRegistered,
    utils.Claims_ClaimsI.
  destruct (jwt.Verify hmac alg c sig utils.jwtSecret); simpl;
    [| discriminate].
  destruct (jwt.Validate (utils.RegisteredClaims c) now); simpl;
    [reflexivity | discriminate].
Qed.

Lemma Verify_own_signature c :
  jwt.Verify hmac jwt.SigningMethodHS256 c
    (hmac jwt.SigningMethodHS256 utils.jwtSecret c) utils.jwtSecret = true.
Proof. apply String.eqb_refl. Qed.

Lemma issued_validates issuedAt now userID email role :
  issuedAt <= now ->
  now < issuedAt + hours24 ->
  jwt.Validate
    (utils.RegisteredClaims (issuedClaims issuedAt userID email role)) now
  = [].
Proof.
  intros Hge Hlt. apply Validate_nil.
  unfold jwt.verifyExpiresAt, jwt.verifyNotBefore; simpl. split.
  - apply Z.ltb_lt. exact Hlt.
  - apply negb_true_iff, Z.ltb_ge. exact Hge.
Qed.

Lemma Verify_true_iff alg c sig key :
  jwt.Verify hmac alg c sig key = true <->
  (alg = jwt.SigningMethodHS256 \/ alg = jwt.SigningMethodHS384 \/
   alg = jwt.SigningMethodHS512) /\
  sig = hmac alg key c.
Proof.
  unfold jwt.Verify.
  destruct alg; rewrite ?String.eqb_eq; split;
    try (intros Heq; split; [auto | exact Heq]);
    try (intros [_ Heq]; exact Heq);
    try discriminate;
    intros [[Halg | [Halg | Halg]] _]; discriminate Halg.
Qed.

Lemma verifyExpiresAt_iff rc now :
  jwt.verifyExpiresAt rc now = true <->
  (forall expiresAt, jwt.ExpiresAt rc = Some expiresAt -> now < expiresAt).
Proof.
  unfold jwt.verifyExpiresAt. destruct (jwt.ExpiresAt rc) as [exp |].
  - rewrite Z.ltb_lt. split.
    + intros Hlt expiresAt [= <-]. exact Hlt.
    + intros Hall. apply Hall. reflexivity.
  - split; [intros _ expiresAt Hnone; discriminate Hnone | reflexivity].
Qed.

Lemma verifyNotBefore_iff rc now :
  jwt.verifyNotBefore rc now = true <->
  (forall notBefore, jwt.NotBefore rc = Some notBefore -> notBefore <= now).
Proof.
  unfold jwt.verifyNotBefore. destruct (jwt.NotBefore rc) as [nbf |].
  - rewrite negb_true_iff, Z.ltb_ge. split.
    + intros Hle notBefore [= <-]. exact Hle.
    + intros Hall. apply Hall. reflexivity.
  - split; [intros _ notBefore Hnone; discriminate Hnone | reflexivity].
Qed.

(** A token presented before its issue instant is refused as not valid
    yet: [GenerateJWT] sets [NotBefore] to the issue instant. *)
Lemma issued_not_valid_yet issuedAt now userID email role :
  now < issuedAt ->
  utils.ValidateJWT hmac now
    (jwt.Compact jwt.SigningMethodHS256
       (issuedClaims issuedAt userID email role)
       (hmac jwt.SigningMethodHS256 utils.jwtSecret
          (issuedClaims issuedAt userID email role)))
  = Err (utils.JwtError
           (jwt.ErrTokenInvalidClaims [jwt.ErrTokenNotValidYet])).
Proof.
  intros Hlt.
  unfold utils.ValidateJWT, jwt.ParseWithClaims.
  rewrite Verify_own_signature. simpl.
  unfold jwt.Validate, jwt.verifyExpiresAt, jwt.verifyNotBefore,
    jwt.GetRegistered, utils.Claims_ClaimsI. simpl.
  assert (Hexp : (now <? issuedAt + hours24) = true)
    by (apply Z.ltb_lt; unfold hours24; lia).
  assert (Hnbf : (now <? issuedAt) = true) by (apply Z.ltb_lt; exact Hlt).
  rewrite Hexp, Hnbf. reflexivity.
Qed.

(** C2, as the code has it. Round trip of the credential codec:
    [GenerateJWT] takes a user id, an e-mail and a role and no lifetime;
    the token it issues carries them, is valid from the issue instant
    (its not-before) and expires 24 hours later. [ValidateJWT] returns
    the claims that were issued, hence the same user id, e-mail and role,
    exactly at the instants from the issue instant up to, and excluding,
    the expiry; at an instant before the issue instant, although before
    the expiry, the token is refused as not valid yet. *)
Theorem issue_verify_roundtrip
    (issuedAt now : Time) (userID email role : string) :
  exists tok claims,
    utils.GenerateJWT hmac issuedAt userID email role = Ok tok /\
    utils.UserID claims = userID /\
    utils.Email claims = email /\
    utils.Role claims = role /\
    jwt.NotBefore (utils.RegisteredClaims claims) = Some issuedAt /\
    jwt.ExpiresAt (utils.RegisteredClaims claims)
      = Some (issuedAt + hours24) /\
    (utils.ValidateJWT hmac now tok = Ok claims
     <-> issuedAt <= now /\ now < issuedAt + hours24) /\
    (now < issuedAt ->
     utils.ValidateJWT hmac now tok
     = Err (utils.JwtError
              (jwt.ErrTokenInvalidClaims [jwt.ErrTokenNotValidYet]))).
Proof.
  eexists. exists (issuedClaims issuedAt userID email role).
  split; [apply GenerateJWT_eq |].
  do 5 (split; [reflexivity |]).
  split; [split |].
  - intros Hok.
    assert (Hv : is_ok (utils.ValidateJWT hmac now
                          (jwt.Compact jwt.SigningMethodHS256
                             (issuedClaims issuedAt userID email role)
                             (hmac jwt.SigningMethodHS256 utils.jwtSecret
                                (issuedClaims issuedAt userID email role))))
                 = true)
      by (rewrite Hok; reflexivity).
    apply ValidateJWT_ok_iff in Hv as [_ Hv].
    apply Validate_nil in Hv as [Hexp Hnbf].
    rewrite verifyExpiresAt_iff in Hexp.
    rewrite verifyNotBefore_iff in Hnbf.
    split; [apply Hnbf | apply Hexp]; reflexivity.
  - intros [Hge Hlt].
    apply ValidateJWT_ok_claims, ValidateJWT_ok_iff. split.
    + apply Verify_own_signature.
    + apply issued_validates; assumption.
  - apply issued_not_valid_yet.
Qed.

(** C3, as the code has it. Expiry boundary: a token issued at
    [issuedAt] (lifetime [T = hours24], the one [GenerateJWT] has)
    verifies at [issuedAt + T - 1] and is refused as expired at every
    instant from [issuedAt + T] on. A credential is accepted exactly when
    its header names an HMAC method, its signature segment is the MAC of
    its claims under the issuer secret, the instant is before its expiry
    and the instant is not before its not-before instant, each date
    being checked when the credential carries it; a string that is not a
    token is never accepted. *)
Theorem expiry_boundary (issuedAt : Time) (userID email role : string) :
  exists tok,
    utils.GenerateJWT hmac issuedAt userID email role = Ok tok /\
    utils.ValidateJWT hmac (issuedAt + hours24 - 1) tok
      = Ok (issuedClaims issuedAt userID email role) /\
    (forall now,
        issuedAt + hours24 <= now ->
        utils.ValidateJWT hmac now tok
        = Err (utils.JwtError
                 (jwt.ErrTokenInvalidClaims [jwt.ErrTokenExpired]))) /\
    (forall now alg c sig,
        is_ok (utils.ValidateJWT hmac now (jwt.Compact alg c sig)) = true
        <-> (alg = jwt.SigningMethodHS256 \/
             alg = jwt.SigningMethodHS384 \/
             alg = jwt.SigningMethodHS512) /\
            sig = hmac alg utils.jwtSecret c /\
            (forall expiresAt,
                jwt.ExpiresAt (utils.RegisteredClaims c) = Some expiresAt ->
                now < expiresAt) /\
            (forall notBefore,
                jwt.NotBefore (utils.RegisteredClaims c) = Some notBefore ->
                notBefore <= now)) /\
    (forall now,
        utils.ValidateJWT hmac now jwt.Unparseable
        = Err (utils.JwtError jwt.ErrTokenMalformed)).
Proof.
  eexists. split; [apply GenerateJWT_eq |]. split; [| split; [| split]].
  - apply ValidateJWT_ok_claims, ValidateJWT_ok_iff. split.
    + apply Verify_own_signature.
    + apply issued_validates; unfold hours24; lia.
  - intros now Hnow.
    unfold utils.ValidateJWT, jwt.ParseWithClaims.
    rewrite Verify_own_signature. simpl.
    unfold jwt.Validate, jwt.verifyExpiresAt, jwt.verifyNotBefore,
      jwt.GetRegistered, utils.Claims_ClaimsI. simpl.
    assert (Hexp : (now <? issuedAt + hours24) = false)
      by (apply Z.ltb_ge; exact Hnow).
    assert (Hnbf : (now <? issuedAt) = false)
      by (apply Z.ltb_ge; unfold hours24 in Hnow; lia).
    rewrite Hexp, Hnbf. reflexivity.
  - intros now alg c sig.
    rewrite ValidateJWT_ok_iff, Validate_nil, Verify_true_iff,
      verifyExpiresAt_iff, verifyNotBefore_iff.
    tauto.
  - intros now. reflexivity.
Qed.

(** C6, as the code has it. [GenerateJWT] takes no lifetime and has no
    failing input: for every instant, user id, e-mail and role it returns
    an HS256 token issued and valid from [now], expiring at
    [now + 24 * 3600], and signed under [jwtSecret] over all of its
    claims. *)
Theorem GenerateJWT_fixed_lifetime
    (now : Time) (userID email role : string) :
  exists claims,
    utils.GenerateJWT hmac now userID email role
    = Ok (jwt.Compact jwt.SigningMethodHS256 claims
            (hmac jwt.SigningMethodHS256 utils.jwtSecret claims)) /\
    utils.UserID claims = userID /\
    utils.Email claims = email /\
    utils.Role claims = role /\
    jwt.IssuedAt (utils.RegisteredClaims claims) = Some now /\
    jwt.NotBefore (utils.RegisteredClaims claims) = Some now /\
    jwt.ExpiresAt (utils.RegisteredClaims claims) = Some (now + 24 * 3600).
Proof.
  exists (issuedClaims now userID email role).
  split; [apply GenerateJWT_eq | repeat split].
Qed.
End Codec.

Lemma issue_verify_roundtrip_witness :
  exists tok claims,
    utils.GenerateJWT Example.hmac 1000 "7f3c" "alice@example.com" "user"
    = Ok tok /\
    jwt.ExpiresAt (utils.RegisteredClaims claims) = Some (1000 + hours24) /\
    utils.ValidateJWT Example.hmac 1010 tok = Ok claims /\
    utils.UserID claims = "7f3c" /\
    utils.Email claims = "alice@example.com" /\
    utils.Role claims = "user".
Proof.
  destruct (issue_verify_roundtrip Example.hmac 1000 1010 "7f3c"
              "alice@example.com" "user")
    as (tok & claims & Hgen & Hid & Hemail & Hrole & _ & Hexp & Hiff & _).
  exists tok, claims.
  split; [exact Hgen |]. split; [exact Hexp |].
  split; [| split; [exact Hid | split; [exact Hemail | exact Hrole]]].
  apply Hiff. split; [lia | reflexivity].
Defined.

(** C2 as stated fails on the code: the token issued at instant 1000 is
    presented at instant 999, strictly before its expiry, and is refused,
    because it is not valid before its issue instant. *)
Lemma roundtrip_before_issue_counterexample :
  exists tok,
    utils.GenerateJWT Example.hmac 1000 "7f3c" "alice@example.com" "user"
    = Ok tok /\
    999 < 1000 + hours24 /\
    utils.ValidateJWT Example.hmac 999 tok
    = Err (utils.JwtError
             (jwt.ErrTokenInvalidClaims [jwt.ErrTokenNotValidYet])).
Proof.
  eexists. split; [apply GenerateJWT_eq |].
  split; [reflexivity |].
  apply issued_not_valid_yet. lia.
Qed.

Lemma expiry_boundary_witness :
  let claims := issuedClaims 1000 "7f3c" "alice@example.com" "user" in
  exists tok,
    utils.GenerateJWT Example.hmac 1000 "7f3c" "alice@example.com" "user"
    = Ok tok /\
    is_ok (utils.ValidateJWT Example.hmac (1000 + hours24 - 1) tok) = true /\
    utils.ValidateJWT Example.hmac (1000 + hours24) tok
    = Err (utils.JwtError (jwt.ErrTokenInvalidClaims [jwt.ErrTokenExpired])) /\
    is_ok (utils.ValidateJWT Example.hmac 1010
             (jwt.Compact jwt.SigningMethodHS256 claims
                (Example.hmac jwt.SigningMethodHS256 utils.jwtSecret claims)))
    = true /\
    is_ok (utils.ValidateJWT Example.hmac 1010
             (jwt.Compact jwt.SigningMethodHS256 claims "forged"))
    = false.
Proof.
  intros claims.
  destruct (expiry_boundary Example.hmac 1000 "7f3c" "alice@example.com"
              "user") as (tok & Hgen & Hlast & Hexpired & Hiff & _).
  exists tok. split; [exact Hgen |]. split; [| split; [| split]].
  - rewrite Hlast. reflexivity.
  - apply Hexpired. lia.
  - apply Hiff. split; [left; reflexivity |]. split; [reflexivity |].
    split.
    + intros expiresAt [= <-]. reflexivity.
    + intros notBefore [= <-]. lia.
  - apply not_true_is_false. intros Hok.
    apply Hiff in Hok as (_ & Hsig & _). vm_compute in Hsig.
    discriminate Hsig.
Defined.

(** C3 as stated fails on the code: a credential whose signature is the
    MAC of its claims under the issuer secret, presented at instant 4000,
    before its expiry, is refused, because its not-before instant 5000
    has not come. *)
Lemma valid_before_expiry_counterexample :
  let claims := issuedClaims 5000 "7f3c" "alice@example.com" "user" in
  let sig := Example.hmac jwt.SigningMethodHS256 utils.jwtSecret claims in
  jwt.ExpiresAt (utils.RegisteredClaims claims) = Some (5000 + hours24) /\
  4000 < 5000 + hours24 /\
  jwt.Verify Example.hmac jwt.SigningMethodHS256 claims sig utils.jwtSecret
  = true /\
  is_ok (utils.ValidateJWT Example.hmac 4000
           (jwt.Compact jwt.SigningMethodHS256 claims sig))
  = false.
Proof.
  intros claims sig. split; [reflexivity |]. split; [reflexivity |].
  split; [apply Verify_own_signature |].
  subst sig claims. rewrite issued_not_valid_yet by lia. reflexivity.
Qed.

(** C6 as stated fails on the code: there is no lifetime to pass, and the
    token issued at instant 0 expires at 86400 whatever lifetime was meant;
    the positive lifetime 1 would have it expire at 1. *)
Lemma issue_ttl_counterexample :
  ~ (forall ttl : Z,
        0 < ttl ->
        exists alg c sig,
          utils.GenerateJWT Example.hmac 0 "7f3c" "alice@example.com" "user"
          = Ok (jwt.Compact alg c sig) /\
          jwt.ExpiresAt (utils.RegisteredClaims c) = Some (0 + ttl)).
Proof.
  intros Hclaim.
  destruct (Hclaim 1 ltac:(lia)) as (alg & c & sig & Hgen & Hexp).
  rewrite GenerateJWT_eq in Hgen. inversion Hgen; subst.
  discriminate Hexp.
Qed.

(** ** Authenticator: [AuthHandler.Login] over [UserRepository.GetByEmail] *)
Section Authenticator.
Variable hmac : jwt.SigningMethod -> string -> utils.Claims -> string.
Variable CompareHashAndPassword : string -> string -> bool.
Variable isEmail : string -> bool.

Local Abbreviation Login :=
  (handlers.Login hmac CompareHashAndPassword isEmail).

(** A missing row is reported as no user and no error. *)
Lemma GetByEmail_absent db email :
  gorm.fault db = None ->
  (forall u, In u (gorm.users db) -> models.Email u <> email) ->
  repositories.GetByEmail db email = (None, None).
Proof.
  intros Hfault Habsent.
  unfold repositories.GetByEmail, gorm.WhereEmailFirst. rewrite Hfault.
  destruct (find (fun u => String.eqb (models.Email u) email)
              (gorm.users db)) as [u |] eqn:Hfind; [| reflexivity].
  apply find_some in Hfind as [Hin Heq].
  apply String.eqb_eq in Heq. destruct (Habsent u Hin Heq).
Qed.

Lemma GetByEmail_fault db email msg :
  gorm.fault db = Some msg ->
  repositories.GetByEmail db email = (None, Some (gorm.ErrOther msg)).
Proof.
  intros Hfault.
  unfold repositories.GetByEmail, gorm.WhereEmailFirst.
  rewrite Hfault. reflexivity.
Qed.

(** An existing principal with a wrong secret gets the
    invalid-credentials answer, active or not. *)
Lemma Login_wrong_password db now input user :
  handlers.ValidateStruct isEmail input = [] ->
  repositories.GetByEmail db (handlers.Email input) = (Some user, None) ->
  CompareHashAndPassword (models.Password user) (handlers.Password input)
  = false ->
  Login db now (Some input)
  = handlers.ErrorResponse fiber.StatusUnauthorized "Invalid credentials".
Proof.
  intros Hvalid Hfound Hwrong. unfold handlers.Login.
  rewrite Hvalid, Hfound, Hwrong. reflexivity.
Qed.

(** A failed query gets the same answer as a wrong secret. *)
Lemma Login_lookup_error db now input msg :
  handlers.ValidateStruct isEmail input = [] ->
  gorm.fault db = Some msg ->
  Login db now (Some input)
  = handlers.ErrorResponse fiber.StatusUnauthorized "Invalid credentials".
Proof.
  intros Hvalid Hfault. unfold handlers.Login.
  rewrite Hvalid, (GetByEmail_fault _ _ _ Hfault). reflexivity.
Qed.

(** C1, on the failing input. For an e-mail that no row of the users
    table has, [GetByEmail] returns neither a user nor an error, [Login]
    skips its invalid-credentials answer and dereferences the nil user:
    the call panics, and behind the recover middleware the caller sees
    status 500 with the panic text, not the 401 of a wrong secret. *)
Theorem Login_unknown_email_panics db now input :
  handlers.ValidateStruct isEmail input = [] ->
  gorm.fault db = None ->
  (forall u, In u (gorm.users db) ->
             models.Email u <> handlers.Email input) ->
  Login db now (Some input) = handlers.Panicked handlers.nilDereference /\
  handlers.recover (Login db now (Some input))
  = {| handlers.status := fiber.StatusInternalServerError;
       handlers.body := handlers.ErrorBody handlers.nilDereference |} /\
  handlers.recover (Login db now (Some input))
  <> handlers.recover
       (handlers.ErrorResponse fiber.StatusUnauthorized "Invalid credentials").
Proof.
  intros Hvalid Hfault Habsent.
  assert (Hpanic : Login db now (Some input)
                   = handlers.Panicked handlers.nilDereference).
  { unfold handlers.Login.
    rewrite Hvalid, (GetByEmail_absent _ _ Hfault Habsent). reflexivity. }
  rewrite Hpanic.
  split; [reflexivity |]. split; [reflexivity | discriminate].
Qed.

(** C5, as the code has it. For a login whose e-mail resolves to an
    inactive user, the password is compared first: the answer is 403
    [Account is inactive] exactly when the password matches, and 401
    [Invalid credentials] when it does not. The active flag is read only
    after the comparison succeeded. *)
Theorem Login_inactive_after_password db now input user :
  handlers.ValidateStruct isEmail input = [] ->
  repositories.GetByEmail db (handlers.Email input) = (Some user, None) ->
  models.IsActive user = false ->
  Login db now (Some input)
  = if CompareHashAndPassword (models.Password user)
         (handlers.Password input)
    then handlers.ErrorResponse fiber.StatusForbidden "Account is inactive"
    else handlers.ErrorResponse fiber.StatusUnauthorized
           "Invalid credentials".
Proof.
  intros Hvalid Hfound Hinactive. unfold handlers.Login.
  rewrite Hvalid, Hfound, Hinactive.
  destruct (CompareHashAndPassword (models.Password user)
              (handlers.Password input)); reflexivity.
Qed.
End Authenticator.

Lemma Login_unknown_email_panics_witness :
  let input :=
    {| handlers.Email := "mallory@example.com";
       handlers.Password := "anything" |} in
  handlers.Login Example.hmac Example.CompareHashAndPassword Example.isEmail
    Example.db 1000 (Some input)
  = handlers.Panicked handlers.nilDereference /\
  handlers.recover
    (handlers.Login Example.hmac Example.CompareHashAndPassword
       Example.isEmail Example.db 1000 (Some input))
  = {| handlers.status := fiber.StatusInternalServerError;
       handlers.body := handlers.ErrorBody handlers.nilDereference |}.
Proof.
  intros input.
  refine (let H := Login_unknown_email_panics Example.hmac
                     Example.CompareHashAndPassword Example.isEmail
                     Example.db 1000 input _ _ _ in
          conj (proj1 H) (proj1 (proj2 H))).
  - reflexivity.
  - reflexivity.
  - intros u [Hu | [Hu | []]]; subst u; simpl; discriminate.
Defined.

Lemma Login_inactive_after_password_witness :
  let input :=
    {| handlers.Email := "bob@example.com";
       handlers.Password := "hunter2" |} in
  handlers.Login Example.hmac Example.CompareHashAndPassword Example.isEmail
    Example.db 1000 (Some input)
  = handlers.ErrorResponse fiber.StatusForbidden "Account is inactive".
Proof.
  intros input.
  apply (Login_inactive_after_password Example.hmac
           Example.CompareHashAndPassword Example.isEmail Example.db 1000
           input Example.bob); reflexivity.
Defined.

(** C5 as stated fails on the code: Bob's account is inactive, and a login
    for it with a wrong password is answered 401 [Invalid credentials], not
    403 [Account is inactive]. *)
Lemma Login_inactive_wrong_password_counterexample :
  let input :=
    {| handlers.Email := "bob@example.com";
       handlers.Password := "wrong" |} in
  repositories.GetByEmail Example.db (handlers.Email input)
  = (Some Example.bob, None) /\
  models.IsActive Example.bob = false /\
  handlers.Login Example.hmac Example.CompareHashAndPassword Example.isEmail
    Example.db 1000 (Some input)
  = handlers.ErrorResponse fiber.StatusUnauthorized "Invalid credentials" /\
  handlers.Login Example.hmac Example.CompareHashAndPassword Example.isEmail
    Example.db 1000 (Some input)
  <> handlers.ErrorResponse fiber.StatusForbidden "Account is inactive".
Proof.
  intros input. repeat split. discriminate.
Qed.

(** ** Request gate: [AuthMiddleware] and [AdminOnly] *)
Section Gate.
Variable hmac : jwt.SigningMethod -> string -> utils.Claims -> string.

(** The locals of an admitted request hold the verified claims. *)
Lemma AuthMiddleware_Next
    now authHeader (locals ctx : gmap string middlewares.any) :
  middlewares.AuthMiddleware hmac now authHeader locals
  = middlewares.Next ctx ->
  exists token claims,
    authHeader = middlewares.TwoParts "Bearer" token /\
    utils.ValidateJWT hmac now token = Ok claims /\
    ctx !! "role" = Some (middlewares.AnyString (utils.Role claims)).
Proof.
  unfold middlewares.AuthMiddleware.
  destruct authHeader as [| scheme token |]; try discriminate.
  destruct (String.eqb scheme "Bearer") eqn:Hscheme; simpl; [| discriminate].
  apply String.eqb_eq in Hscheme. subst scheme.
  destruct (utils.ValidateJWT hmac now token) as [claims | e] eqn:Hvalid;
    [| discriminate].
  intros Hnext. injection Hnext as <-.
  exists token, claims.
  split; [reflexivity |]. split; [exact Hvalid |].
  apply lookup_insert_eq.
Qed.

Lemma AdminOnly_role (ctx : gmap string middlewares.any) (role : string) :
  ctx !! "role" = Some (middlewares.AnyString role) ->
  middlewares.AdminOnly ctx
  = if String.eqb role "admin" then middlewares.Next ctx
    else middlewares.Reply fiber.StatusForbidden "Admin access required".
Proof.
  intros Hrole. unfold middlewares.AdminOnly. rewrite Hrole. simpl.
  destruct (String.eqb role "admin"); reflexivity.
Qed.

(** C4. Scope enforcement is distinct from authentication: a request that
    [AuthMiddleware] admitted carries its role in the locals, and
    [AdminOnly], the one capability check of the code, answers it 403
    [Admin access required] when that role is not [admin] (never the 401 it
    keeps for a request without a role), and passes it on unchanged when
    the role is [admin]. *)
Theorem AdminOnly_forbidden_not_unauthorized
    now authHeader (locals ctx : gmap string middlewares.any) :
  middlewares.AuthMiddleware hmac now authHeader locals
  = middlewares.Next ctx ->
  exists role,
    ctx !! "role" = Some (middlewares.AnyString role) /\
    (role <> "admin" ->
     middlewares.AdminOnly ctx
     = middlewares.Reply fiber.StatusForbidden "Admin access required" /\
     forall message,
       middlewares.AdminOnly ctx
       <> middlewares.Reply fiber.StatusUnauthorized message) /\
    (role = "admin" -> middlewares.AdminOnly ctx = middlewares.Next ctx).
Proof.
  intros Hnext.
  destruct (AuthMiddleware_Next _ _ _ _ Hnext)
    as (token & claims & _ & _ & Hrole).
  exists (utils.Role claims). split; [exact Hrole |].
  rewrite (AdminOnly_role _ _ Hrole). split.
  - intros Hne. apply String.eqb_neq in Hne. rewrite Hne.
    split; [reflexivity | discriminate].
  - intros ->. reflexivity.
Qed.
End Gate.

Lemma AdminOnly_forbidden_not_unauthorized_witness :
  exists tok ctx,
    utils.GenerateJWT Example.hmac 1000 "7f3c" "alice@example.com" "user"
    = Ok tok /\
    middlewares.AuthMiddleware Example.hmac 1010
      (middlewares.TwoParts "Bearer" tok) ∅
    = middlewares.Next ctx /\
    ctx !! "role" = Some (middlewares.AnyString "user") /\
    middlewares.AdminOnly ctx
    = middlewares.Reply fiber.StatusForbidden "Admin access required".
Proof.
  eexists. eexists.
  split; [apply GenerateJWT_eq |].
  assert (Hnext :
    middlewares.AuthMiddleware Example.hmac 1010
      (middlewares.TwoParts "Bearer"
         (jwt.Compact jwt.SigningMethodHS256
            (issuedClaims 1000 "7f3c" "alice@example.com" "user")
            (Example.hmac jwt.SigningMethodHS256 utils.jwtSecret
               (issuedClaims 1000 "7f3c" "alice@example.com" "user")))) ∅
    = middlewares.Next
        (<["role" := middlewares.AnyString "user"]>
         (<["email" := middlewares.AnyString "alice@example.com"]>
          (<["user_id" := middlewares.AnyString "7f3c"]> ∅))))
    by reflexivity.
  split; [exact Hnext |].
  destruct (AdminOnly_forbidden_not_unauthorized Example.hmac _ _ _ _ Hnext)
    as (role & Hrole & Hforbidden & _).
  rewrite lookup_insert_eq in Hrole. injection Hrole as <-.
  split; [apply lookup_insert_eq |].
  apply Hforbidden. discriminate.
Defined.

(** ** Client session: [useAuthStore] and the client's interceptors *)

Lemma login_Fulfilled server credentials w response :
  server (loginRequest credentials (useAuthStore.browser w))
  = client.Fulfilled response ->
  useAuthStore.login server credentials w
  = ({| useAuthStore.store :=
          {| useAuthStore.token := Some (authApi.token response);
             useAuthStore.user := Some (authApi.user response);
             useAuthStore.loading := false |};
        useAuthStore.browser :=
          {| client.localStorage :=
               <["token" := authApi.token response]>
                 (client.localStorage (useAuthStore.browser w));
             client.href := client.href (useAuthStore.browser w) |} |},
     Ok tt).
Proof.
  intros Hserver.
  unfold useAuthStore.login, authApi.login, client.post.
  fold (loginRequest credentials (useAuthStore.browser w)).
  rewrite Hserver. reflexivity.
Qed.

Lemma login_Failed server credentials w status :
  server (loginRequest credentials (useAuthStore.browser w))
  = client.Failed status ->
  useAuthStore.login server credentials w
  = ({| useAuthStore.store :=
          useAuthStore.setLoading false
            (useAuthStore.setLoading true (useAuthStore.store w));
        useAuthStore.browser :=
          client.onRejected status (useAuthStore.browser w) |},
     Err {| client.responseStatus := status |}).
Proof.
  intros Hserver.
  unfold useAuthStore.login, authApi.login, client.post.
  fold (loginRequest credentials (useAuthStore.browser w)).
  rewrite Hserver. reflexivity.
Qed.

Lemma onRejected_401 b :
  client.onRejected (Some 401) b
  = {| client.localStorage := delete "token" (client.localStorage b);
       client.href := "/login" |}.
Proof. reflexivity. Qed.

Lemma onRejected_other status b :
  status <> Some 401 -> client.onRejected status b = b.
Proof.
  intros Hne. unfold client.onRejected.
  destruct status as [code |]; [| reflexivity].
  destruct (Z.eqb_spec code 401) as [-> | _]; [congruence | reflexivity].
Qed.

Lemma truthy_true_iff (v : option string) :
  client.truthy v = true <-> exists t, v = Some t /\ t <> "".
Proof.
  unfold client.truthy. destruct v as [s |].
  - rewrite negb_true_iff, String.eqb_neq. split.
    + intros Hne. exists s. split; [reflexivity | exact Hne].
    + intros (t & Ht & Hne). injection Ht as <-. exact Hne.
  - split; [discriminate | intros (t & Ht & _); discriminate].
Qed.

(** C7, as the code has it. After a successful login has stored a token, a
    rejection with status 401 makes the response interceptor remove the
    persisted token and point the location at [/login]: later requests
    carry no [Authorization] header, and the store set up by the page load
    that follows holds no token. The store instance of the running page is
    out of the interceptor's reach and keeps its refs. *)
Theorem rejection_clears_persisted_token server credentials w response :
  server (loginRequest credentials (useAuthStore.browser w))
  = client.Fulfilled response ->
  let w1 := fst (useAuthStore.login server credentials w) in
  let w2 := useAuthStore.rejected (Some 401) w1 in
  (useAuthStore.token (useAuthStore.store w1)
   = Some (authApi.token response) /\
   client.localStorage (useAuthStore.browser w1) !! "token"
   = Some (authApi.token response)) /\
  client.localStorage (useAuthStore.browser w2) !! "token" = None /\
  client.href (useAuthStore.browser w2) = "/login" /\
  (forall D (config : client.Request D),
      client.onRequest (useAuthStore.browser w2) config = config) /\
  useAuthStore.token
    (useAuthStore.store (useAuthStore.pageLoad (useAuthStore.browser w2)))
  = None /\
  useAuthStore.store w2 = useAuthStore.store w1.
Proof.
  intros Hserver w1 w2. subst w2 w1.
  rewrite (login_Fulfilled _ _ _ _ Hserver). simpl.
  assert (Hgone : delete "token"
            (<["token" := authApi.token response]>
               (client.localStorage (useAuthStore.browser w)))
            !! "token" = (None : option string))
    by apply lookup_delete_eq.
  split; [split; [reflexivity | apply lookup_insert_eq] |].
  split; [exact Hgone |]. split; [reflexivity |].
  split; [| split; [exact Hgone | reflexivity]].
  intros D config. unfold client.onRequest. simpl. rewrite Hgone. reflexivity.
Qed.

(** C8. Idempotent logout: from every state, [logout] (a total function, it
    has no failing path) leaves both the store's token and the persisted
    token absent, and a second [logout] changes nothing. *)
Theorem logout_idempotent (w : useAuthStore.World) :
  let w1 := useAuthStore.logout w in
  let w2 := useAuthStore.logout w1 in
  (useAuthStore.token (useAuthStore.store w1) = None /\
   client.localStorage (useAuthStore.browser w1) !! "token" = None) /\
  (useAuthStore.token (useAuthStore.store w2) = None /\
   client.localStorage (useAuthStore.browser w2) !! "token" = None) /\
  w2 = w1.
Proof.
  intros w1 w2. subst w2 w1. unfold useAuthStore.logout. simpl.
  rewrite delete_delete_eq.
  repeat split; apply lookup_delete_eq.
Qed.

(** C9, as the code has it. When the API call of [login] throws, the
    store's token and user are as before, [loading] is false and the error
    reaches the caller. The persisted token is as before too unless the
    error is a 401 response: then the client's response interceptor has
    removed it and pointed the location at [/login]. *)
Theorem login_failure_effects server credentials w status :
  server (loginRequest credentials (useAuthStore.browser w))
  = client.Failed status ->
  let w' := fst (useAuthStore.login server credentials w) in
  snd (useAuthStore.login server credentials w)
  = Err {| client.responseStatus := status |} /\
  useAuthStore.token (useAuthStore.store w')
  = useAuthStore.token (useAuthStore.store w) /\
  useAuthStore.user (useAuthStore.store w')
  = useAuthStore.user (useAuthStore.store w) /\
  useAuthStore.loading (useAuthStore.store w') = false /\
  (status <> Some 401 ->
   useAuthStore.browser w' = useAuthStore.browser w) /\
  (status = Some 401 ->
   useAuthStore.browser w'
   = {| client.localStorage :=
          delete "token" (client.localStorage (useAuthStore.browser w));
        client.href := "/login" |}).
Proof.
  intros Hserver w'. subst w'.
  rewrite (login_Failed _ _ _ _ Hserver). simpl.
  repeat split.
  - apply onRejected_other.
  - intros ->. apply onRejected_401.
Qed.

(** C10, as the code has it. [isAuthenticated] is true exactly when the
    stored token is a non-empty string, in every state of the store, and
    so after each of its operations: after the initial load exactly when a
    non-empty token is persisted, after a successful login exactly when the
    token of the response is non-empty, after a failed login as before it,
    and never after [logout]. *)
Theorem isAuthenticated_iff_token_truthy :
  (forall s,
      useAuthStore.isAuthenticated s = true <->
      exists t, useAuthStore.token s = Some t /\ t <> "") /\
  (forall b,
      useAuthStore.isAuthenticated
        (useAuthStore.store (useAuthStore.pageLoad b)) = true <->
      exists t, client.localStorage b !! "token" = Some t /\ t <> "") /\
  (forall server credentials w response,
      server (loginRequest credentials (useAuthStore.browser w))
      = client.Fulfilled response ->
      useAuthStore.isAuthenticated
        (useAuthStore.store (fst (useAuthStore.login server credentials w)))
      = negb (String.eqb (authApi.token response) "")) /\
  (forall server credentials w status,
      server (loginRequest credentials (useAuthStore.browser w))
      = client.Failed status ->
      useAuthStore.isAuthenticated
        (useAuthStore.store (fst (useAuthStore.login server credentials w)))
      = useAuthStore.isAuthenticated (useAuthStore.store w)) /\
  (forall w,
      useAuthStore.isAuthenticated (useAuthStore.store (useAuthStore.logout w))
      = false).
Proof.
  split; [| split; [| split; [| split]]].
  - intros s. apply truthy_true_iff.
  - intros b. apply truthy_true_iff.
  - intros server credentials w response Hserver.
    rewrite (login_Fulfilled _ _ _ _ Hserver). reflexivity.
  - intros server credentials w status Hserver.
    rewrite (login_Failed _ _ _ _ Hserver). reflexivity.
  - intros w. reflexivity.
Qed.

Lemma rejection_clears_persisted_token_witness :
  let w1 :=
    fst (useAuthStore.login (Example.accepting "t1") Example.credentials
           (useAuthStore.pageLoad Example.signedOut)) in
  let w2 := useAuthStore.rejected (Some 401) w1 in
  client.localStorage (useAuthStore.browser w1) !! "token" = Some "t1" /\
  client.localStorage (useAuthStore.browser w2) !! "token" = None /\
  client.href (useAuthStore.browser w2) = "/login".
Proof.
  intros w1 w2.
  destruct (rejection_clears_persisted_token (Example.accepting "t1")
              Example.credentials (useAuthStore.pageLoad Example.signedOut)
              _ eq_refl)
    as ((_ & Hset) & Hgone & Hhref & _).
  split; [exact Hset |]. split; [exact Hgone | exact Hhref].
Defined.

(** C7 as stated fails on the code: after a login that stored the token
    [t1], a 401 rejection leaves the token ref of the store at [t1], and
    the store still reports an authenticated session. *)
Lemma rejection_keeps_store_token_counterexample :
  let w1 :=
    fst (useAuthStore.login (Example.accepting "t1") Example.credentials
           (useAuthStore.pageLoad Example.signedOut)) in
  let w2 := useAuthStore.rejected (Some 401) w1 in
  useAuthStore.token (useAuthStore.store w1) = Some "t1" /\
  useAuthStore.token (useAuthStore.store w2) = Some "t1" /\
  useAuthStore.token (useAuthStore.store w2) <> None /\
  useAuthStore.isAuthenticated (useAuthStore.store w2) = true.
Proof.
  intros w1 w2. repeat split. discriminate.
Qed.

Lemma login_failure_effects_witness :
  let w := useAuthStore.pageLoad Example.signedIn in
  let w' :=
    fst (useAuthStore.login (Example.failing (Some 500)) Example.credentials
           w) in
  snd (useAuthStore.login (Example.failing (Some 500)) Example.credentials w)
  = Err {| client.responseStatus := Some 500 |} /\
  useAuthStore.token (useAuthStore.store w') = Some "t0" /\
  useAuthStore.loading (useAuthStore.store w') = false /\
  useAuthStore.browser w' = Example.signedIn /\
  client.href
    (useAuthStore.browser
       (fst (useAuthStore.login (Example.failing (Some 401))
               Example.credentials w)))
  = "/login".
Proof.
  intros w w'.
  destruct (login_failure_effects (Example.failing (Some 500))
              Example.credentials w (Some 500) eq_refl)
    as (Hthrown & Htoken & _ & Hloading & Hsame & _).
  destruct (login_failure_effects (Example.failing (Some 401))
              Example.credentials w (Some 401) eq_refl)
    as (_ & _ & _ & _ & _ & Hremoved).
  split; [exact Hthrown |].
  split; [exact Htoken |].
  split; [exact Hloading |].
  split; [apply Hsame; discriminate |].
  rewrite (Hremoved eq_refl). reflexivity.
Defined.

(** C9 as stated fails on the code: with the token [t0] persisted, a login
    that the server answers with 401 throws, and the persisted token is
    gone. *)
Lemma login_failure_401_counterexample :
  let w := useAuthStore.pageLoad Example.signedIn in
  let w' :=
    fst (useAuthStore.login (Example.failing (Some 401)) Example.credentials
           w) in
  snd (useAuthStore.login (Example.failing (Some 401)) Example.credentials w)
  = Err {| client.responseStatus := Some 401 |} /\
  client.localStorage (useAuthStore.browser w) !! "token" = Some "t0" /\
  client.localStorage (useAuthStore.browser w') !! "token" = None /\
  client.localStorage (useAuthStore.browser w')
  <> client.localStorage (useAuthStore.browser w).
Proof.
  intros w w'. split; [reflexivity |]. split; [reflexivity |].
  split; [reflexivity |].
  intros Heq.
  assert (Hlookup :
    client.localStorage (useAuthStore.browser w') !! "token"
    = client.localStorage (useAuthStore.browser w) !! "token")
    by (rewrite Heq; reflexivity).
  discriminate Hlookup.
Qed.

Lemma isAuthenticated_iff_token_truthy_witness :
  useAuthStore.isAuthenticated
    (useAuthStore.store
       (fst (useAuthStore.login (Example.accepting "t1") Example.credentials
               (useAuthStore.pageLoad Example.signedOut))))
  = true /\
  useAuthStore.isAuthenticated
    (useAuthStore.store
       (fst (useAuthStore.login (Example.failing None) Example.credentials
               (useAuthStore.pageLoad Example.signedOut))))
  = false.
Proof.
  destruct isAuthenticated_iff_token_truthy
    as (_ & _ & Hfulfilled & Hfailed & _).
  split.
  - exact (Hfulfilled (Example.accepting "t1") Example.credentials
             (useAuthStore.pageLoad Example.signedOut) _ eq_refl).
  - exact (Hfailed (Example.failing None) Example.credentials
             (useAuthStore.pageLoad Example.signedOut) None eq_refl).
Defined.

(** C10 as stated fails on the code: an empty token, persisted or taken
    from a login response, is a stored token that is not null, and
    [isAuthenticated] is false. *)
Lemma isAuthenticated_empty_token_counterexample :
  let loaded := useAuthStore.store (useAuthStore.pageLoad Example.emptyToken) in
  let logged :=
    useAuthStore.store
      (fst (useAuthStore.login (Example.accepting "") Example.credentials
              (useAuthStore.pageLoad Example.signedOut))) in
  (useAuthStore.token loaded <> None /\
   useAuthStore.isAuthenticated loaded = false) /\
  (useAuthStore.token logged <> None /\
   useAuthStore.isAuthenticated logged = false).
Proof.
  intros loaded logged. repeat split; discriminate.
Qed.

(** * Further properties of the code *)

(** ** The gate, the codec and the login handler together *)
Section GateAndCodec.
Variable hmac : jwt.SigningMethod -> string -> utils.Claims -> string.
Variable CompareHashAndPassword : string -> string -> bool.
Variable isEmail : string -> bool.

(** The locals [AuthMiddleware] and [OptionalAuth] write for verified
    claims. *)
Local Abbreviation userLocals claims locals :=
  (<["role" := middlewares.AnyString (utils.Role claims)]>
   (<["email" := middlewares.AnyString (utils.Email claims)]>
    (<["user_id" := middlewares.AnyString (utils.UserID claims)]>
     locals))).

(** X1. [OptionalAuth] never answers a request itself. It passes the
    request on with the locals [AuthMiddleware] would have set where
    [AuthMiddleware] admits it, and with its locals untouched where
    [AuthMiddleware] would have answered 401. *)
Theorem OptionalAuth_follows_AuthMiddleware
    now authHeader (locals : gmap string middlewares.any) :
  routes.OptionalAuth hmac now authHeader locals
  = middlewares.Next
      match middlewares.AuthMiddleware hmac now authHeader locals with
      | middlewares.Next ctx => ctx
      | middlewares.Reply _ _ => locals
      end.
Proof.
  unfold routes.OptionalAuth, middlewares.AuthMiddleware.
  destruct authHeader as [| scheme token |]; try reflexivity.
  destruct (String.eqb scheme "Bearer"); simpl; [| reflexivity].
  destruct (utils.ValidateJWT hmac now token); reflexivity.
Qed.

Lemma AuthMiddleware_valid now token claims
    (locals : gmap string middlewares.any) :
  utils.ValidateJWT hmac now token = Ok claims ->
  middlewares.AuthMiddleware hmac now (middlewares.TwoParts "Bearer" token)
    locals
  = middlewares.Next (userLocals claims locals).
Proof.
  intros Hvalid. unfold middlewares.AuthMiddleware. simpl.
  rewrite Hvalid. reflexivity.
Qed.

Lemma AuthMiddleware_Next_locals
    now authHeader (locals ctx : gmap string middlewares.any) :
  middlewares.AuthMiddleware hmac now authHeader locals
  = middlewares.Next ctx ->
  exists token claims,
    authHeader = middlewares.TwoParts "Bearer" token /\
    utils.ValidateJWT hmac now token = Ok claims /\
    ctx = userLocals claims locals.
Proof.
  unfold middlewares.AuthMiddleware.
  destruct authHeader as [| scheme token |]; try discriminate.
  destruct (String.eqb scheme "Bearer") eqn:Hscheme; simpl;
    [| discriminate].
  apply String.eqb_eq in Hscheme. subst scheme.
  destruct (utils.ValidateJWT hmac now token) as [claims | e] eqn:Hvalid;
    [| discriminate].
  intros Hnext. injection Hnext as <-.
  exists token, claims.
  split; [reflexivity |]. split; [exact Hvalid | reflexivity].
Qed.

Lemma AuthMiddleware_Reply
    now authHeader (locals : gmap string middlewares.any) status message :
  middlewares.AuthMiddleware hmac now authHeader locals
  = middlewares.Reply status message ->
  status = fiber.StatusUnauthorized.
Proof.
  unfold middlewares.AuthMiddleware.
  destruct authHeader as [| scheme token |].
  - intros Hreply. injection Hreply as <- _. reflexivity.
  - destruct (String.eqb scheme "Bearer"); simpl.
    + destruct (utils.ValidateJWT hmac now token); [discriminate |].
      intros Hreply. injection Hreply as <- _. reflexivity.
    + intros Hreply. injection Hreply as <- _. reflexivity.
  - intros Hreply. injection Hreply as <- _. reflexivity.
Qed.

(** X2. [AuthMiddleware] admits a request exactly when its header is
    [Bearer] followed by a token that [ValidateJWT] accepts, and then the
    locals are the given ones with [user_id], [email] and [role] set from
    the claims; every other request is answered, and always with 401. *)
Theorem AuthMiddleware_admits_iff
    now authHeader (locals : gmap string middlewares.any) :
  (forall ctx,
      middlewares.AuthMiddleware hmac now authHeader locals
      = middlewares.Next ctx <->
      exists token claims,
        authHeader = middlewares.TwoParts "Bearer" token /\
        utils.ValidateJWT hmac now token = Ok claims /\
        ctx = userLocals claims locals) /\
  (forall status message,
      middlewares.AuthMiddleware hmac now authHeader locals
      = middlewares.Reply status message ->
      status = fiber.StatusUnauthorized).
Proof.
  split.
  - intros ctx. split; [apply AuthMiddleware_Next_locals |].
    intros (token & claims & -> & Hvalid & ->).
    apply AuthMiddleware_valid. exact Hvalid.
  - intros status message. apply AuthMiddleware_Reply.
Qed.

(** X3. The admin group ([AuthMiddleware], then [AdminOnly]) lets a
    request through exactly when it carries a valid [Bearer] token whose
    role claim is [admin], and answers 403 exactly when it carries a valid
    token with another role; the role comes from the token, whatever the
    locals held before. *)
Theorem admin_group_outcome
    now authHeader (locals : gmap string middlewares.any) :
  ((exists ctx,
       routes.admin hmac now authHeader locals = middlewares.Next ctx) <->
   exists token claims,
     authHeader = middlewares.TwoParts "Bearer" token /\
     utils.ValidateJWT hmac now token = Ok claims /\
     utils.Role claims = "admin") /\
  ((exists message,
       routes.admin hmac now authHeader locals
       = middlewares.Reply fiber.StatusForbidden message) <->
   exists token claims,
     authHeader = middlewares.TwoParts "Bearer" token /\
     utils.ValidateJWT hmac now token = Ok claims /\
     utils.Role claims <> "admin").
Proof.
  unfold routes.admin, routes.chain.
  destruct (middlewares.AuthMiddleware hmac now authHeader locals)
    as [ctx | status message] eqn:Hauth.
  - destruct (AuthMiddleware_Next_locals _ _ _ _ Hauth)
      as (token & claims & -> & Hvalid & ->).
    assert (Hrole :
      (userLocals claims locals) !! "role"
      = Some (middlewares.AnyString (utils.Role claims)))
      by apply lookup_insert_eq.
    rewrite (AdminOnly_role _ _ Hrole).
    assert (Hsame : forall token' claims',
               middlewares.TwoParts "Bearer" token
               = middlewares.TwoParts "Bearer" token' ->
               utils.ValidateJWT hmac now token' = Ok claims' ->
               claims' = claims).
    { intros token' claims' Hheader Hvalid'. injection Hheader as <-.
      congruence. }
    destruct (String.eqb_spec (utils.Role claims) "admin") as [Heq | Hne];
      (split; split).
    + intros _. exists token, claims. repeat split; assumption.
    + intros _. eexists. reflexivity.
    + intros [message Hreply]. discriminate.
    + intros (token' & claims' & Hheader & Hvalid' & Hother).
      rewrite (Hsame _ _ Hheader Hvalid') in Hother. contradiction.
    + intros [ctx Hnext]. discriminate.
    + intros (token' & claims' & Hheader & Hvalid' & Hadmin).
      rewrite (Hsame _ _ Hheader Hvalid') in Hadmin. contradiction.
    + intros _. exists token, claims. repeat split; assumption.
    + intros _. eexists. reflexivity.
  - assert (Hnone : forall token claims,
               authHeader = middlewares.TwoParts "Bearer" token ->
               utils.ValidateJWT hmac now token = Ok claims -> False).
    { intros token claims -> Hvalid.
      rewrite (AuthMiddleware_valid _ _ _ _ Hvalid) in Hauth.
      discriminate. }
    pose proof (AuthMiddleware_Reply _ _ _ _ _ Hauth) as Hstatus.
    split; split.
    + intros [ctx Hnext]. discriminate.
    + intros (token & claims & Hheader & Hvalid & _).
      destruct (Hnone token claims Hheader Hvalid).
    + intros [message' Hreply]. injection Hreply as Hs _.
      rewrite Hstatus in Hs. discriminate.
    + intros (token & claims & Hheader & Hvalid & _).
      destruct (Hnone token claims Hheader Hvalid).
Qed.
End GateAndCodec.

Section CodecAndLogin.
Variable hmac : jwt.SigningMethod -> string -> utils.Claims -> string.
Variable CompareHashAndPassword : string -> string -> bool.
Variable isEmail : string -> bool.

Local Abbreviation Login :=
  (handlers.Login hmac CompareHashAndPassword isEmail).

(** The signature is checked before the dates: a token whose signature
    does not verify under [jwtSecret] is rejected as signature-invalid at
    every instant, expired or not. *)
Lemma ValidateJWT_signature_first now alg c sig :
  jwt.Verify hmac alg c sig utils.jwtSecret = false ->
  utils.ValidateJWT hmac now (jwt.Compact alg c sig)
  = Err (utils.JwtError jwt.ErrTokenSignatureInvalid).
Proof.
  intros Hverify. unfold utils.ValidateJWT, jwt.ParseWithClaims.
  rewrite Hverify. reflexivity.
Qed.

(** X4. Tamper detection: the signature of an issued token does not carry
    over to other claims. A token made of altered claims (another role,
    user id, e-mail or date) and the signature of the issued token is
    rejected as signature-invalid at every instant, expired or not; the
    one assumption is the MAC's, that the altered claims do not have the
    same MAC as the issued ones. *)
Theorem ValidateJWT_rejects_altered_claims
    issuedAt now userID email role (altered : utils.Claims) :
  hmac jwt.SigningMethodHS256 utils.jwtSecret altered
  <> hmac jwt.SigningMethodHS256 utils.jwtSecret
       (issuedClaims issuedAt userID email role) ->
  exists sig,
    utils.GenerateJWT hmac issuedAt userID email role
    = Ok (jwt.Compact jwt.SigningMethodHS256
            (issuedClaims issuedAt userID email role) sig) /\
    utils.ValidateJWT hmac now (jwt.Compact jwt.SigningMethodHS256 altered sig)
    = Err (utils.JwtError jwt.ErrTokenSignatureInvalid).
Proof.
  intros Hmac. eexists. split; [apply GenerateJWT_eq |].
  apply ValidateJWT_signature_first. unfold jwt.Verify.
  apply String.eqb_neq. congruence.
Qed.

(** X5. What [ValidateJWT] accepts and how it fails: an accepted token is
    parseable, its algorithm is one of the three HMAC methods (never [none]
    or an asymmetric one), its signature is the MAC of its claims under
    [jwtSecret], and the claims returned are the token's own; a rejection is
    always an error of the jwt library, never the handler's own fallback
    [invalid token]. *)
Theorem ValidateJWT_accepts_only_hmac now tokenString :
  (forall claims,
      utils.ValidateJWT hmac now tokenString = Ok claims ->
      exists alg,
        tokenString
        = jwt.Compact alg claims (hmac alg utils.jwtSecret claims) /\
        (alg = jwt.SigningMethodHS256 \/ alg = jwt.SigningMethodHS384 \/
         alg = jwt.SigningMethodHS512)) /\
  (forall e,
      utils.ValidateJWT hmac now tokenString = Err e ->
      exists err, e = utils.JwtError err).
Proof.
  unfold utils.ValidateJWT, jwt.ParseWithClaims. split.
  - intros claims.
    destruct tokenString as [alg c sig |]; [| discriminate].
    destruct (jwt.Verify hmac alg c sig utils.jwtSecret) eqn:Hverify; simpl;
      [| discriminate].
    destruct (jwt.Validate (jwt.GetRegistered c) now); simpl;
      [| discriminate].
    intros Hok. injection Hok as <-. exists alg.
    unfold jwt.Verify in Hverify.
    destruct alg; try discriminate; apply String.eqb_eq in Hverify;
      subst sig; (split; [reflexivity | tauto]).
  - intros e.
    destruct tokenString as [alg c sig |].
    + destruct (jwt.Verify hmac alg c sig utils.jwtSecret); simpl.
      * destruct (jwt.Validate (jwt.GetRegistered c) now); simpl;
          [discriminate |].
        intros Herr. injection Herr as <-. eexists. reflexivity.
      * intros Herr. injection Herr as <-. eexists. reflexivity.
    + intros Herr. injection Herr as <-. eexists. reflexivity.
Qed.

(** [Login] answers 200 only on its last path. *)
Lemma Login_200_inversion db now requestBody responseBody :
  Login db now requestBody
  = handlers.Responded
      {| handlers.status := fiber.StatusOK; handlers.body := responseBody |} ->
  exists input user,
    requestBody = Some input /\
    handlers.ValidateStruct isEmail input = [] /\
    repositories.GetByEmail db (handlers.Email input) = (Some user, None) /\
    CompareHashAndPassword (models.Password user) (handlers.Password input)
    = true /\
    models.IsActive user = true /\
    responseBody
    = handlers.LoginBody "Login successful"
        (jwt.Compact jwt.SigningMethodHS256
           (issuedClaims now (models.ID user) (models.Email user)
              (models.Role user))
           (hmac jwt.SigningMethodHS256 utils.jwtSecret
              (issuedClaims now (models.ID user) (models.Email user)
                 (models.Role user))))
        {| handlers.id := models.ID user;
           handlers.email := models.Email user;
           handlers.name := models.Name user;
           handlers.role := models.Role user |}.
Proof.
  unfold handlers.Login.
  destruct requestBody as [input |]; [| discriminate].
  destruct (handlers.ValidateStruct isEmail input) eqn:Hvalid;
    [| discriminate].
  destruct (repositories.GetByEmail db (handlers.Email input))
    as [[user |] [err |]] eqn:Hfound; try discriminate.
  rewrite GenerateJWT_eq.
  destruct (CompareHashAndPassword (models.Password user)
              (handlers.Password input)) eqn:Hpassword; simpl;
    [| discriminate].
  destruct (models.IsActive user) eqn:Hactive; simpl; [| discriminate].
  intros Hresponse.
  injection Hresponse as <-.
  exists input, user. repeat split; assumption.
Qed.

(** X6. [Login] answers 200 exactly when the body parses and validates,
    the e-mail has a row, the password matches its hash and the account is
    active: no token is handed out for a wrong password or an inactive
    account. *)
Theorem Login_succeeds_iff db now requestBody :
  (exists responseBody,
      Login db now requestBody
      = handlers.Responded
          {| handlers.status := fiber.StatusOK;
             handlers.body := responseBody |}) <->
  exists input user,
    requestBody = Some input /\
    handlers.ValidateStruct isEmail input = [] /\
    repositories.GetByEmail db (handlers.Email input) = (Some user, None) /\
    CompareHashAndPassword (models.Password user) (handlers.Password input)
    = true /\
    models.IsActive user = true.
Proof.
  split.
  - intros [responseBody Hlogin].
    destruct (Login_200_inversion _ _ _ _ Hlogin)
      as (input & user & Hbody & Hvalid & Hfound & Hpassword & Hactive & _).
    exists input, user. repeat split; assumption.
  - intros (input & user & -> & Hvalid & Hfound & Hpassword & Hactive).
    unfold handlers.Login.
    rewrite Hvalid, Hfound, Hpassword, Hactive, GenerateJWT_eq.
    eexists. reflexivity.
Qed.

(** X7. Login and gate together: the token of a 200 answer of [Login],
    presented as [Bearer] from the instant of the login up to 24 hours
    later, is admitted by [AuthMiddleware], and the locals it sets are the
    id, e-mail and role of the row that logged in; [AdminOnly] then passes
    the request exactly when that row's role is [admin]. *)
Theorem Login_token_is_admitted
    db issuedAt now requestBody message token view
    (locals : gmap string middlewares.any) :
  Login db issuedAt requestBody
  = handlers.Responded
      {| handlers.status := fiber.StatusOK;
         handlers.body := handlers.LoginBody message token view |} ->
  issuedAt <= now ->
  now < issuedAt + hours24 ->
  exists input user,
    requestBody = Some input /\
    repositories.GetByEmail db (handlers.Email input) = (Some user, None) /\
    middlewares.AuthMiddleware hmac now
      (middlewares.TwoParts "Bearer" token) locals
    = middlewares.Next
        (<["role" := middlewares.AnyString (models.Role user)]>
         (<["email" := middlewares.AnyString (models.Email user)]>
          (<["user_id" := middlewares.AnyString (models.ID user)]>
           locals))) /\
    ((exists ctx,
         routes.admin hmac now (middlewares.TwoParts "Bearer" token) locals
         = middlewares.Next ctx) <->
     models.Role user = "admin").
Proof.
  intros Hlogin Hge Hlt.
  destruct (Login_200_inversion _ _ _ _ Hlogin)
    as (input & user & Hbody & _ & Hfound & _ & _ & Hresponse).
  injection Hresponse as _ -> _.
  exists input, user. split; [exact Hbody |]. split; [exact Hfound |].
  assert (Hvalid :
    utils.ValidateJWT hmac now
      (jwt.Compact jwt.SigningMethodHS256
         (issuedClaims issuedAt (models.ID user) (models.Email user)
            (models.Role user))
         (hmac jwt.SigningMethodHS256 utils.jwtSecret
            (issuedClaims issuedAt (models.ID user) (models.Email user)
               (models.Role user))))
    = Ok (issuedClaims issuedAt (models.ID user) (models.Email user)
            (models.Role user))).
  { apply ValidateJWT_ok_claims, ValidateJWT_ok_iff. split.
    - apply Verify_own_signature.
    - apply issued_validates; assumption. }
  assert (Hauth :
    middlewares.AuthMiddleware hmac now
      (middlewares.TwoParts "Bearer"
         (jwt.Compact jwt.SigningMethodHS256
            (issuedClaims issuedAt (models.ID user) (models.Email user)
               (models.Role user))
            (hmac jwt.SigningMethodHS256 utils.jwtSecret
               (issuedClaims issuedAt (models.ID user) (models.Email user)
                  (models.Role user))))) locals
    = middlewares.Next
        (<["role" := middlewares.AnyString (models.Role user)]>
         (<["email" := middlewares.AnyString (models.Email user)]>
          (<["user_id" := middlewares.AnyString (models.ID user)]>
           locals)))).
  { unfold middlewares.AuthMiddleware. simpl. rewrite Hvalid. reflexivity. }
  split; [exact Hauth |].
  unfold routes.admin, routes.chain. rewrite Hauth.
  erewrite AdminOnly_role by apply lookup_insert_eq.
  destruct (String.eqb_spec (models.Role user) "admin") as [Heq | Hne].
  - split; [intros _; exact Heq | intros _; eexists; reflexivity].
  - split; [intros [ctx Hnext]; discriminate | intros Heq; contradiction].
Qed.
End CodecAndLogin.

Lemma ValidateJWT_rejects_altered_claims_witness :
  exists sig,
    utils.GenerateJWT Example.hmac 1000 "7f3c" "alice@example.com" "user"
    = Ok (jwt.Compact jwt.SigningMethodHS256
            (issuedClaims 1000 "7f3c" "alice@example.com" "user") sig) /\
    utils.ValidateJWT Example.hmac 1010
      (jwt.Compact jwt.SigningMethodHS256
         (issuedClaims 1000 "7f3c" "alice@example.com" "admin") sig)
    = Err (utils.JwtError jwt.ErrTokenSignatureInvalid).
Proof.
  apply (ValidateJWT_rejects_altered_claims Example.hmac 1000 1010).
  discriminate.
Defined.

Lemma Login_token_is_admitted_witness :
  let claims := issuedClaims 1000 "7f3c" "alice@example.com" "user" in
  let token :=
    jwt.Compact jwt.SigningMethodHS256 claims
      (Example.hmac jwt.SigningMethodHS256 utils.jwtSecret claims) in
  let requestBody :=
    Some {| handlers.Email := "alice@example.com";
            handlers.Password := "correctpw" |} in
  let view :=
    {| handlers.id := "7f3c";
       handlers.email := "alice@example.com";
       handlers.name := "Alice";
       handlers.role := "user" |} in
  handlers.Login Example.hmac Example.CompareHashAndPassword
    Example.isEmail Example.db 1000 requestBody
  = handlers.Responded
      {| handlers.status := fiber.StatusOK;
         handlers.body := handlers.LoginBody "Login successful" token view |}
  /\
  exists ctx,
    middlewares.AuthMiddleware Example.hmac 1010
      (middlewares.TwoParts "Bearer" token) ∅
    = middlewares.Next ctx /\
    ctx !! "user_id" = Some (middlewares.AnyString "7f3c").
Proof.
  intros claims token requestBody view.
  assert (Hlogin :
    handlers.Login Example.hmac Example.CompareHashAndPassword
      Example.isEmail Example.db 1000 requestBody
    = handlers.Responded
        {| handlers.status := fiber.StatusOK;
           handlers.body :=
             handlers.LoginBody "Login successful" token view |})
    by reflexivity.
  split; [exact Hlogin |].
  destruct (Login_token_is_admitted Example.hmac
              Example.CompareHashAndPassword Example.isEmail Example.db
              1000 1010 requestBody "Login successful" token view ∅
              Hlogin ltac:(lia) eq_refl)
    as (input & user & Hbody & Hfound & Hauth & _).
  injection Hbody as <-.
  injection Hfound as <-.
  eexists. split; [exact Hauth | reflexivity].
Defined.

(** ** Pagination, stock and configuration *)

Lemma wrap_small z : - 2 ^ 63 <= z < 2 ^ 63 -> goInt.wrap z = z.
Proof.
  intros Hz. unfold goInt.wrap. rewrite Z.mod_small; lia.
Qed.

Lemma PaginatedResponse_pages {D} (data : D) (page pageSize total : Z) :
  0 < pageSize ->
  0 <= total < 2 ^ 63 ->
  response.PaginatedResponse data page pageSize total
  = response.Responded fiber.StatusOK "Data fetched successfully" data
      {| response.page := page;
         response.page_size := pageSize;
         response.total_items := total;
         response.total_pages :=
           if total mod pageSize =? 0 then total / pageSize
           else total / pageSize + 1 |}.
Proof.
  intros Hsize Htotal.
  unfold response.PaginatedResponse, goInt.div, goInt.rem, goInt.add.
  destruct (Z.eqb_spec pageSize 0) as [-> | _]; [lia |].
  rewrite Z.quot_div_nonneg, Z.rem_mod_nonneg by lia.
  pose proof (Z.div_mod total pageSize ltac:(lia)) as Hdm.
  pose proof (Z.mod_pos_bound total pageSize Hsize) as Hmod.
  assert (Hq : 0 <= total / pageSize <= total).
  { split; [apply Z.div_pos; lia | nia]. }
  rewrite (wrap_small (total / pageSize)) by lia.
  destruct (Z.eqb_spec (total mod pageSize) 0) as [Hzero | Hnonzero];
    cbn [negb]; [reflexivity |].
  rewrite wrap_small by nia. reflexivity.
Qed.

(** X8. [PaginatedResponse] reports the number of pages as the ceiling of
    [total / pageSize]: for a positive page size and a total that is not
    negative, [total_pages] is the one [n] with
    [(n - 1) * pageSize < total <= n * pageSize], and page, page size and
    total are echoed. *)
Theorem PaginatedResponse_total_pages
    {D} (data : D) (page pageSize total : Z) :
  0 < pageSize ->
  0 <= total < 2 ^ 63 ->
  exists n,
    response.PaginatedResponse data page pageSize total
    = response.Responded fiber.StatusOK "Data fetched successfully" data
        {| response.page := page;
           response.page_size := pageSize;
           response.total_items := total;
           response.total_pages := n |} /\
    (n - 1) * pageSize < total <= n * pageSize.
Proof.
  intros Hsize Htotal.
  eexists. split; [apply PaginatedResponse_pages; assumption |].
  pose proof (Z.div_mod total pageSize ltac:(lia)) as Hdm.
  pose proof (Z.mod_pos_bound total pageSize Hsize) as Hmod.
  destruct (Z.eqb_spec (total mod pageSize) 0) as [Hzero | Hnonzero]; nia.
Qed.

(** X9. [PaginatedResponse] panics (integer division by zero) exactly when
    the page size is zero; every other page size, negative ones too, gets a
    200 answer. *)
Theorem PaginatedResponse_panics_iff
    {D} (data : D) (page pageSize total : Z) :
  (exists msg,
      response.PaginatedResponse data page pageSize total
      = response.Panicked msg) <->
  pageSize = 0.
Proof.
  unfold response.PaginatedResponse, goInt.div, goInt.rem.
  destruct (Z.eqb_spec pageSize 0) as [-> | Hne]; simpl.
  - split; [reflexivity | intros _; eexists; reflexivity].
  - split; [intros [msg Hpanic]; discriminate | contradiction].
Qed.

Section Stock.
Context {float64 : Type}.
Implicit Type p : product.Product float64.

Lemma ReduceStock_covered p quantity :
  quantity <= product.Stock p ->
  - 2 ^ 63 <= product.Stock p - quantity < 2 ^ 63 ->
  product.ReduceStock p quantity
  = ({| product.ID := product.ID p;
        product.Name := product.Name p;
        product.Description := product.Description p;
        product.Price := product.Price p;
        product.Stock := product.Stock p - quantity;
        product.CategoryID := product.CategoryID p;
        product.IsActive := product.IsActive p |},
     None).
Proof.
  intros Hle Hrange. unfold product.ReduceStock, goInt.sub.
  destruct (Z.ltb_spec (product.Stock p) quantity) as [Hlt | _]; [lia |].
  rewrite wrap_small by exact Hrange. reflexivity.
Qed.

Lemma ReduceStock_short p quantity :
  product.Stock p < quantity ->
  product.ReduceStock p quantity = (p, Some "insufficient stock").
Proof.
  intros Hlt. unfold product.ReduceStock.
  destruct (Z.ltb_spec (product.Stock p) quantity) as [_ | Hge];
    [reflexivity | lia].
Qed.

(** X10. [ReduceStock] with a quantity that is not negative: it succeeds
    exactly when the stock covers the quantity, then lowers the stock by it
    and touches no other field, so the stock never goes below zero and the
    product stays available exactly while it is active and stock is left;
    when the stock does not cover it, the product is unchanged. *)
Theorem ReduceStock_keeps_stock_nonnegative p quantity :
  0 <= quantity ->
  0 <= product.Stock p < 2 ^ 63 ->
  (quantity <= product.Stock p ->
   exists p',
     product.ReduceStock p quantity = (p', None) /\
     product.Stock p' = product.Stock p - quantity /\
     0 <= product.Stock p' <= product.Stock p /\
     (product.ID p', product.Name p', product.Description p',
      product.Price p', product.CategoryID p', product.IsActive p')
     = (product.ID p, product.Name p, product.Description p,
        product.Price p, product.CategoryID p, product.IsActive p) /\
     product.IsAvailable p'
     = product.IsActive p && (quantity <? product.Stock p)) /\
  (product.Stock p < quantity ->
   product.ReduceStock p quantity = (p, Some "insufficient stock")).
Proof.
  intros Hq Hstock. split; [| apply ReduceStock_short].
  intros Hle. eexists.
  split; [apply ReduceStock_covered; lia |].
  cbn [product.Stock product.ID product.Name product.Description
       product.Price product.CategoryID product.IsActive].
  split; [reflexivity |]. split; [lia |]. split; [reflexivity |].
  unfold product.IsAvailable.
  cbn [product.Stock product.IsActive]. f_equal.
  destruct (Z.ltb_spec 0 (product.Stock p - quantity)),
    (Z.ltb_spec quantity (product.Stock p)); lia || reflexivity.
Qed.


Lemma wrap_above z :
  2 ^ 63 <= z < 2 ^ 63 + 2 ^ 64 -> goInt.wrap z = z - 2 ^ 64.
Proof.
  intros Hz. unfold goInt.wrap.
  replace (z + 2 ^ 63) with (z + 2 ^ 63 - 2 ^ 64 + 1 * 2 ^ 64) by lia.
  rewrite Z.mod_add by lia. rewrite Z.mod_small; lia.
Qed.

(** X12. [ReduceStock] has no guard against a negative quantity. For a
    stock and a negative quantity in the range of Go's 64-bit [int]: the
    call is refused, the product unchanged, only when the stock is below
    the quantity, so itself negative; otherwise it is accepted and the
    new stock is the old one less the quantity: the stock rises by the
    quantity's size when that fits the 64-bit [int], and wraps around to
    a negative stock when it does not. *)
Theorem ReduceStock_negative_quantity_raises_stock p quantity :
  - 2 ^ 63 <= quantity < 0 ->
  - 2 ^ 63 <= product.Stock p < 2 ^ 63 ->
  (product.Stock p < quantity ->
   product.ReduceStock p quantity = (p, Some "insufficient stock")) /\
  (quantity <= product.Stock p ->
   exists p',
     product.ReduceStock p quantity = (p', None) /\
     (product.Stock p - quantity < 2 ^ 63 ->
      product.Stock p' = product.Stock p - quantity /\
      product.Stock p < product.Stock p') /\
     (2 ^ 63 <= product.Stock p - quantity ->
      product.Stock p' = product.Stock p - quantity - 2 ^ 64 /\
      product.Stock p' < 0)).
Proof.
  intros Hneg Hstock. split; [apply ReduceStock_short |].
  intros Hle. eexists. split.
  - unfold product.ReduceStock.
    destruct (Z.ltb_spec (product.Stock p) quantity) as [Hlt | _];
      [lia | reflexivity].
  - cbn [product.Stock]. unfold goInt.sub. split.
    + intros Hfits. rewrite wrap_small by lia. lia.
    + intros Hover. rewrite wrap_above by lia. lia.
Qed.
End Stock.

Lemma getEnv_loaded dotenv environ key defaultValue :
  config.getEnv (fst (config.godotenvLoad dotenv environ)) key defaultValue
  = resolved dotenv environ key defaultValue.
Proof.
  unfold config.getEnv, config.Getenv, config.godotenvLoad, resolved.
  destruct dotenv as [file |]; simpl.
  - rewrite lookup_union.
    destruct (environ !! key) as [v |]; simpl.
    + destruct (file !! key); simpl; destruct (String.eqb v ""); reflexivity.
    + destruct (file !! key) as [v |]; simpl;
        [destruct (String.eqb v "") |]; reflexivity.
  - destruct (environ !! key) as [v |]; simpl;
      [destruct (String.eqb v "") |]; reflexivity.
Qed.

Lemma resolved_nonempty dotenv environ key defaultValue :
  defaultValue <> "" -> resolved dotenv environ key defaultValue <> "".
Proof.
  intros Hdefault. unfold resolved.
  match goal with
  | |- (if String.eqb ?v "" then _ else _) <> _ =>
      destruct (String.eqb_spec v "") as [Heq | Hne]
  end; assumption.
Qed.

Lemma LoadConfig_eq dotenv environ :
  config.LoadConfig dotenv environ
  = let log1 :=
      if snd (config.godotenvLoad dotenv environ) then []
      else ["⚠️  No .env file found, using system environment variables"] in
    let cfg :=
      {| config.Port := resolved dotenv environ "PORT" "3000";
         config.Environment :=
           resolved dotenv environ "ENVIRONMENT" "development";
         config.DBHost := resolved dotenv environ "DB_HOST" "localhost";
         config.DBPort := resolved dotenv environ "DB_PORT" "5432";
         config.DBUser := resolved dotenv environ "DB_USER" "postgres";
         config.DBPassword := resolved dotenv environ "DB_PASSWORD" "";
         config.DBName := resolved dotenv environ "DB_NAME" "myapp";
         config.JWTSecret :=
           resolved dotenv environ "JWT_SECRET" "your-secret-key";
         config.PaymentAPIKey :=
           resolved dotenv environ "PAYMENT_API_KEY" "" |} in
    if String.eqb (config.DBPassword cfg) "" then
      ((log1 ++ ["❌ DB_PASSWORD is required"])%list, None)
    else
      ((log1 ++
        (if String.eqb (config.JWTSecret cfg) "your-secret-key" then
           ["⚠️  WARNING: Using default JWT secret. Change this in production!"]
         else []))%list,
       Some cfg).
Proof.
  unfold config.LoadConfig.
  rewrite <- !getEnv_loaded.
  destruct (config.godotenvLoad dotenv environ) as [env loaded].
  reflexivity.
Qed.

(** X13. [LoadConfig] ends the process exactly when no non-empty
    [DB_PASSWORD] is resolved; a configuration it returns has a non-empty
    port, environment, database host, port, user, password and name, and a
    non-empty JWT secret. *)
Theorem LoadConfig_required_settings dotenv environ :
  (snd (config.LoadConfig dotenv environ) = None <->
   resolved dotenv environ "DB_PASSWORD" "" = "") /\
  (forall cfg,
      snd (config.LoadConfig dotenv environ) = Some cfg ->
      config.Port cfg <> "" /\
      config.Environment cfg <> "" /\
      config.DBHost cfg <> "" /\
      config.DBPort cfg <> "" /\
      config.DBUser cfg <> "" /\
      config.DBPassword cfg <> "" /\
      config.DBName cfg <> "" /\
      config.JWTSecret cfg <> "").
Proof.
  rewrite LoadConfig_eq. cbv zeta. simpl config.DBPassword.
  destruct (String.eqb_spec (resolved dotenv environ "DB_PASSWORD" "") "")
    as [Hempty | Hset]; simpl.
  - split; [tauto | discriminate].
  - split; [split; [discriminate | contradiction] |].
    intros cfg Hcfg. injection Hcfg as <-. simpl.
    repeat split; try (apply resolved_nonempty; discriminate).
    exact Hset.
Qed.

(** X14. Where a returned configuration takes its values from: each
    setting is the process environment's value when the process has the
    variable, else the [.env] file's, and the default when that is empty or
    missing; so a variable exported empty hides the [.env] entry and yields
    the default. The default-secret warning is logged exactly when the
    resolved JWT secret is the default one. *)
Theorem LoadConfig_resolution dotenv environ cfg :
  snd (config.LoadConfig dotenv environ) = Some cfg ->
  cfg
  = {| config.Port := resolved dotenv environ "PORT" "3000";
       config.Environment :=
         resolved dotenv environ "ENVIRONMENT" "development";
       config.DBHost := resolved dotenv environ "DB_HOST" "localhost";
       config.DBPort := resolved dotenv environ "DB_PORT" "5432";
       config.DBUser := resolved dotenv environ "DB_USER" "postgres";
       config.DBPassword := resolved dotenv environ "DB_PASSWORD" "";
       config.DBName := resolved dotenv environ "DB_NAME" "myapp";
       config.JWTSecret :=
         resolved dotenv environ "JWT_SECRET" "your-secret-key";
       config.PaymentAPIKey :=
         resolved dotenv environ "PAYMENT_API_KEY" "" |} /\
  (In "⚠️  WARNING: Using default JWT secret. Change this in production!"
      (fst (config.LoadConfig dotenv environ)) <->
   config.JWTSecret cfg = "your-secret-key").
Proof.
  rewrite LoadConfig_eq. cbv zeta. simpl config.DBPassword.
  simpl config.JWTSecret.
  destruct (String.eqb (resolved dotenv environ "DB_PASSWORD" "") "");
    simpl; [discriminate |].
  intros Hcfg. injection Hcfg as <-. split; [reflexivity |]. simpl.
  rewrite in_app_iff.
  destruct (String.eqb_spec
              (resolved dotenv environ "JWT_SECRET" "your-secret-key")
              "your-secret-key") as [Heq | Hne].
  - split; [intros _; exact Heq | intros _; right; left; reflexivity].
  - split; [| contradiction].
    intros [Hin | []].
    destruct (snd (config.godotenvLoad dotenv environ));
      [destruct Hin | destruct Hin as [Hin | []]; discriminate].
Qed.

(** ** The users table under the user handlers *)


Lemma find_insertRow_email u rows :
  (forall r, In r rows -> models.Email r <> models.Email u) ->
  find (fun r => String.eqb (models.Email r) (models.Email u))
    (query.insertRow u rows)
  = Some u.
Proof.
  induction rows as [| r rest IH]; intros Hfresh; simpl.
  - rewrite String.eqb_refl. reflexivity.
  - destruct (String.ltb (models.ID u) (models.ID r)); simpl.
    + rewrite String.eqb_refl. reflexivity.
    + destruct (String.eqb_spec (models.Email r) (models.Email u))
        as [Heq | _].
      * destruct (Hfresh r (or_introl eq_refl) Heq).
      * apply IH. intros r' Hin. apply Hfresh. right. exact Hin.
Qed.

Lemma existsb_false_forall {A} (f : A -> bool) l :
  existsb f l = false -> forall x, In x l -> f x = false.
Proof.
  intros Hnone x Hin. destruct (f x) eqn:Hfx; [| reflexivity].
  assert (Hsome : existsb f l = true)
    by (apply existsb_exists; exists x; split; assumption).
  congruence.
Qed.

Section UserCreation.
Variable hmac : jwt.SigningMethod -> string -> utils.Claims -> string.
Variable CompareHashAndPassword : string -> string -> bool.
Variable isEmail : string -> bool.
Variable RuneCountInString : string -> Z.
Variable GenerateFromPassword : string -> string -> result string string.

Local Abbreviation Create :=
  (userHandler.Create isEmail RuneCountInString GenerateFromPassword).
Local Abbreviation ValidateStruct :=
  (userHandler.ValidateStruct isEmail RuneCountInString).

(** The row a creation inserts. *)
Local Abbreviation createdRow hookID hashed input :=
  {| models.ID := hookID;
     models.Email := userHandler.Email input;
     models.Name := userHandler.Name input;
     models.Password := hashed;
     models.Role := "user";
     models.IsActive := true |}.

Lemma Create_201_inversion db handlerID hookID salt requestBody :
  userHandler.status (fst (Create db handlerID hookID salt requestBody))
  = userHandler.StatusCreated ->
  exists input hashed,
    requestBody = Ok input /\
    ValidateStruct input = [] /\
    GenerateFromPassword salt (userHandler.Password input) = Ok hashed /\
    gorm.fault db = None /\
    (forall r, In r (gorm.users db) ->
               models.ID r <> hookID /\
               models.Email r <> userHandler.Email input) /\
    Create db handlerID hookID salt requestBody
    = ({| userHandler.status := userHandler.StatusCreated;
          userHandler.body :=
            userHandler.UserBody "User created successfully"
              (userHandler.hidePassword (createdRow hookID hashed input)) |},
       {| gorm.users :=
            query.insertRow (createdRow hookID hashed input) (gorm.users db);
          gorm.fault := None |}).
Proof.
  unfold userHandler.Create.
  destruct requestBody as [input | text]; [| discriminate].
  destruct (ValidateStruct input) eqn:Hvalid; [| discriminate].
  destruct (fst (repositories.GetByEmail db (userHandler.Email input)));
    [discriminate |].
  destruct (GenerateFromPassword salt (userHandler.Password input))
    as [hashed | e] eqn:Hhash; [| discriminate].
  unfold userRepository.Create, query.Create.
  destruct (gorm.fault db) eqn:Hfault; [discriminate |].
  match goal with
  | |- context [existsb ?f (gorm.users db)] =>
      destruct (existsb f (gorm.users db)) eqn:Hdup
  end; [discriminate |].
  intros _. exists input, hashed.
  split; [reflexivity |]. split; [exact Hvalid |]. split; [exact Hhash |].
  split; [reflexivity |]. split; [| reflexivity].
  intros r Hin.
  pose proof (existsb_false_forall _ _ Hdup r Hin) as Hr.
  simpl in Hr. apply orb_false_iff in Hr as [Hid Hemail].
  apply String.eqb_neq in Hid, Hemail. split; assumption.
Qed.


(** X16. Registration and login together: after a 201 of [Create], a login
    with the e-mail and password of the creation is answered 200, and its
    token and user view carry the id the hook gave the row and the role
    [user]. The one assumption is bcrypt's: the hash it generated matches
    the password. *)
Theorem Create_then_Login
    db handlerID hookID salt input now :
  (forall hashed,
      GenerateFromPassword salt (userHandler.Password input) = Ok hashed ->
      CompareHashAndPassword hashed (userHandler.Password input) = true) ->
  userHandler.status (fst (Create db handlerID hookID salt (Ok input)))
  = userHandler.StatusCreated ->
  exists token,
    handlers.Login hmac CompareHashAndPassword isEmail
      (snd (Create db handlerID hookID salt (Ok input))) now
      (Some {| handlers.Email := userHandler.Email input;
               handlers.Password := userHandler.Password input |})
    = handlers.Responded
        {| handlers.status := fiber.StatusOK;
           handlers.body :=
             handlers.LoginBody "Login successful" token
               {| handlers.id := hookID;
                  handlers.email := userHandler.Email input;
                  handlers.name := userHandler.Name input;
                  handlers.role := "user" |} |} /\
    utils.ValidateJWT hmac now token
    = Ok (issuedClaims now hookID (userHandler.Email input) "user").
Proof.
  intros Hbcrypt Hstatus.
  destruct (Create_201_inversion _ _ _ _ _ Hstatus)
    as (input' & hashed & Hbody & Hvalid & Hhash & _ & Hfresh & Hcreate).
  injection Hbody as <-. rewrite Hcreate. cbn [snd].
  assert (Hlogin_valid :
    handlers.ValidateStruct isEmail
      {| handlers.Email := userHandler.Email input;
         handlers.Password := userHandler.Password input |} = []).
  { unfold userHandler.ValidateStruct in Hvalid.
    unfold handlers.ValidateStruct. simpl.
    destruct (String.eqb (userHandler.Email input) ""); [discriminate |].
    destruct (isEmail (userHandler.Email input)); [| discriminate].
    destruct (String.eqb (userHandler.Name input) ""); [discriminate |].
    destruct (String.eqb (userHandler.Password input) "");
      [discriminate | reflexivity]. }
  assert (Hfound :
    repositories.GetByEmail
      {| gorm.users :=
           query.insertRow (createdRow hookID hashed input) (gorm.users db);
         gorm.fault := None |} (userHandler.Email input)
    = (Some (createdRow hookID hashed input), None)).
  { unfold repositories.GetByEmail, gorm.WhereEmailFirst. simpl.
    rewrite (find_insertRow_email (createdRow hookID hashed input));
      [reflexivity |].
    intros r Hin. apply (Hfresh r Hin). }
  eexists. split.
  - unfold handlers.Login. rewrite Hlogin_valid. cbn [handlers.Email].
    rewrite Hfound. cbn [models.Password handlers.Password].
    rewrite (Hbcrypt hashed Hhash). cbn [negb models.IsActive].
    rewrite GenerateJWT_eq. reflexivity.
  - apply ValidateJWT_ok_claims, ValidateJWT_ok_iff. split.
    + apply Verify_own_signature.
    + apply issued_validates; unfold hours24; lia.
Qed.

Lemma GetByEmail_Some db email user :
  fst (repositories.GetByEmail db email) = Some user <->
  gorm.fault db = None /\
  find (fun u => String.eqb (models.Email u) email) (gorm.users db)
  = Some user.
Proof.
  unfold repositories.GetByEmail, gorm.WhereEmailFirst.
  destruct (gorm.fault db); simpl.
  - split; [discriminate | intros [Hf _]; discriminate].
  - destruct (find (fun u => String.eqb (models.Email u) email)
                (gorm.users db)); simpl.
    + split; [intros H; injection H as <-; split; reflexivity
             | intros [_ H]; exact H].
    + split; [discriminate | intros [_ H]; discriminate].
Qed.

Lemma Create_409_inversion db handlerID hookID salt requestBody :
  userHandler.status (fst (Create db handlerID hookID salt requestBody))
  = userHandler.StatusConflict ->
  exists input user,
    requestBody = Ok input /\
    ValidateStruct input = [] /\
    fst (repositories.GetByEmail db (userHandler.Email input)) = Some user.
Proof.
  unfold userHandler.Create.
  destruct requestBody as [input | text]; [| discriminate].
  destruct (ValidateStruct input) eqn:Hvalid; [| discriminate].
  destruct (fst (repositories.GetByEmail db (userHandler.Email input)))
    as [user |] eqn:Hfound.
  - intros _. exists input, user.
    split; [reflexivity |]. split; [exact Hvalid | exact Hfound].
  - destruct (GenerateFromPassword salt (userHandler.Password input));
      [| discriminate].
    destruct (userRepository.Create db _ hookID) as [[db' user] | e];
      discriminate.
Qed.

(** X17. [Create] answers 409 exactly when the body parses and validates
    and the e-mail lookup returns a row, and then the table is as it was.
    The lookup's error is dropped: on a failing database the answer is
    never 409. *)
Theorem Create_conflict_iff db handlerID hookID salt requestBody :
  (userHandler.status (fst (Create db handlerID hookID salt requestBody))
   = userHandler.StatusConflict <->
   exists input user,
     requestBody = Ok input /\
     ValidateStruct input = [] /\
     gorm.fault db = None /\
     In user (gorm.users db) /\
     models.Email user = userHandler.Email input) /\
  (userHandler.status (fst (Create db handlerID hookID salt requestBody))
   = userHandler.StatusConflict ->
   Create db handlerID hookID salt requestBody
   = (userHandler.ErrorResponse userHandler.StatusConflict
        "Email already exists", db)).
Proof.
  split; [split |].
  - intros Hstatus.
    destruct (Create_409_inversion _ _ _ _ _ Hstatus)
      as (input & user & Hbody & Hvalid & Hfound).
    apply GetByEmail_Some in Hfound as [Hfault Hfind].
    apply find_some in Hfind as [Hin Heq]. apply String.eqb_eq in Heq.
    exists input, user. repeat split; assumption.
  - intros (input & user & -> & Hvalid & Hfault & Hin & Heq).
    destruct (find
                (fun u => String.eqb (models.Email u) (userHandler.Email input))
                (gorm.users db)) as [found |] eqn:Hfind.
    + unfold userHandler.Create. rewrite Hvalid.
      rewrite (proj2 (GetByEmail_Some db _ found) (conj Hfault Hfind)).
      reflexivity.
    + pose proof (find_none _ _ Hfind user Hin) as Hnone.
      apply String.eqb_neq in Hnone. contradiction.
  - intros Hstatus.
    destruct (Create_409_inversion _ _ _ _ _ Hstatus)
      as (input & user & -> & Hvalid & Hfound).
    unfold userHandler.Create. rewrite Hvalid, Hfound. reflexivity.
Qed.
End UserCreation.

Lemma NoDup_map_injective {A B} (f : A -> B) (l : list A) (a b : A) :
  NoDup (map f l) -> In a l -> In b l -> f a = f b -> a = b.
Proof.
  induction l as [| x l IH]; simpl; intros Hnodup Ha Hb Hf; [destruct Ha |].
  apply NoDup_cons in Hnodup as [Hx Hnodup].
  rewrite list_elem_of_In in Hx.
  destruct Ha as [-> | Ha], Hb as [-> | Hb].
  - reflexivity.
  - destruct Hx. rewrite Hf. apply in_map. exact Hb.
  - destruct Hx. rewrite <- Hf. apply in_map. exact Ha.
  - apply IH; assumption.
Qed.

Section UserMaintenance.
Variable hmac : jwt.SigningMethod -> string -> utils.Claims -> string.
Variable CompareHashAndPassword : string -> string -> bool.
Variable isEmail : string -> bool.
Variable uuidText : string -> option string.
Variable uuidParse : string -> bool.

Local Abbreviation Delete := (userHandler.Delete uuidText).
Local Abbreviation Update := (userHandler.Update uuidText).

Lemma FirstByID_Ok db id user :
  query.FirstByID uuidText db id = Ok user ->
  gorm.fault db = None /\
  In user (gorm.users db) /\
  uuidText id = Some (models.ID user).
Proof.
  unfold query.FirstByID.
  destruct (gorm.fault db); [discriminate |].
  destruct (uuidText id) as [key |]; [| discriminate].
  destruct (find (fun u => String.eqb (models.ID u) key) (gorm.users db))
    as [u |] eqn:Hfind; [| discriminate].
  intros Hok. injection Hok as <-.
  apply find_some in Hfind as [Hin Heq]. apply String.eqb_eq in Heq.
  subst key. repeat split. exact Hin.
Qed.

(** X18. No call of [Delete] removes an admin: whatever the id, every row
    with role [admin] is still in the table afterwards. The precondition is
    the table's primary key: no two rows share an id. *)
Theorem Delete_keeps_admins db id user :
  NoDup (map models.ID (gorm.users db)) ->
  In user (gorm.users db) ->
  models.Role user = "admin" ->
  In user (gorm.users (snd (Delete db id))).
Proof.
  intros Hkey Hin Hadmin. unfold userHandler.Delete, userRepository.GetByID.
  destruct (query.FirstByID uuidText db id) as [found | e] eqn:Hfound;
    [| exact Hin].
  destruct (user.IsAdmin found) eqn:Hfound_admin; [exact Hin |].
  destruct (FirstByID_Ok _ _ _ Hfound) as (Hfault & Hfound_in & Hid).
  unfold userRepository.Delete, query.DeleteByID. rewrite Hfault, Hid.
  cbn [snd gorm.users]. apply filter_In. split; [exact Hin |].
  apply negb_true_iff, String.eqb_neq. intros Hsame.
  assert (Heq : user = found)
    by (apply (NoDup_map_injective models.ID (gorm.users db)); assumption).
  subst found. unfold user.IsAdmin in Hfound_admin.
  rewrite Hadmin in Hfound_admin. discriminate.
Qed.


(** The columns [Update] has no way to write. *)
Local Abbreviation credentials r :=
  (models.ID r, models.Email r, models.Password r, models.Role r).

Lemma Update_200_inversion db id requestBody :
  userHandler.status (fst (Update db id requestBody)) = fiber.StatusOK ->
  exists old input,
    query.FirstByID uuidText db id = Ok old /\
    requestBody = Some input /\
    let new :=
      {| models.ID := models.ID old;
         models.Email := models.Email old;
         models.Name :=
           if negb (String.eqb (userHandler.NewName input) "")
           then userHandler.NewName input else models.Name old;
         models.Password := models.Password old;
         models.Role := models.Role old;
         models.IsActive :=
           match userHandler.NewIsActive input with
           | Some isActive => isActive
           | None => models.IsActive old
           end |} in
    Update db id requestBody
    = ({| userHandler.status := fiber.StatusOK;
          userHandler.body :=
            userHandler.UserBody "User updated successfully"
              (userHandler.hidePassword new) |},
       {| gorm.users :=
            map (fun r =>
                   if String.eqb (models.ID r) (models.ID old)
                   then new else r)
              (gorm.users db);
          gorm.fault := None |}).
Proof.
  unfold userHandler.Update, userRepository.GetByID.
  destruct (query.FirstByID uuidText db id) as [old | e] eqn:Hfound;
    [| discriminate].
  destruct requestBody as [input |]; [| discriminate].
  destruct (FirstByID_Ok _ _ _ Hfound) as (Hfault & Hin & _).
  unfold userRepository.Update, query.Save. rewrite Hfault.
  cbn [models.ID models.Email].
  destruct (existsb
              (fun r =>
                 negb (String.eqb (models.ID r) (models.ID old)) &&
                 String.eqb (models.Email r) (models.Email old))
              (gorm.users db)); [discriminate |].
  assert (Hexists :
    existsb (fun r => String.eqb (models.ID r) (models.ID old))
      (gorm.users db) = true).
  { apply existsb_exists. exists old.
    split; [exact Hin | apply String.eqb_refl]. }
  rewrite Hexists. intros _. exists old, input.
  split; [reflexivity |]. split; reflexivity.
Qed.

(** X20. [Update] cannot touch an id, an e-mail, a password hash or a role:
    after any call, whatever its answer, the table has the same rows in
    those four columns, in the same order. The precondition is the primary
    key. *)
Theorem Update_keeps_credentials db id requestBody :
  NoDup (map models.ID (gorm.users db)) ->
  map (fun r => credentials r) (gorm.users (snd (Update db id requestBody)))
  = map (fun r => credentials r) (gorm.users db).
Proof.
  intros Hkey.
  destruct (Z.eq_dec
              (userHandler.status (fst (Update db id requestBody)))
              fiber.StatusOK) as [Hok | Hfailed].
  - destruct (Update_200_inversion _ _ _ Hok)
      as (old & input & Hfound & _ & Hupdate).
    cbv zeta in Hupdate. rewrite Hupdate. cbn [snd gorm.users].
    rewrite map_map. apply map_ext_in. intros r Hin.
    destruct (String.eqb_spec (models.ID r) (models.ID old)) as [Hsame | _];
      [| reflexivity].
    destruct (FirstByID_Ok _ _ _ Hfound) as (_ & Hold & _).
    assert (Heq : r = old)
      by (apply (NoDup_map_injective models.ID (gorm.users db)); assumption).
    subst r. reflexivity.
  - revert Hfailed. unfold userHandler.Update.
    destruct (userRepository.GetByID uuidText db id); [| reflexivity].
    destruct requestBody; [| reflexivity].
    destruct (userRepository.Update db _); [| reflexivity].
    cbn [fst userHandler.status]. contradiction.
Qed.

Lemma find_email_after_update (old new : models.User) rows :
  models.Email new = models.Email old ->
  find (fun u => String.eqb (models.Email u) (models.Email old)) rows
  = Some old ->
  find (fun u => String.eqb (models.Email u) (models.Email old))
    (map (fun r =>
            if String.eqb (models.ID r) (models.ID old) then new else r)
       rows)
  = Some new.
Proof.
  intros Hemail. induction rows as [| r rest IH]; simpl; [discriminate |].
  destruct (String.eqb_spec (models.ID r) (models.ID old)) as [Hid | Hid].
  - intros _. rewrite Hemail, String.eqb_refl. reflexivity.
  - destruct (String.eqb (models.Email r) (models.Email old)).
    + intros Hfound. injection Hfound as ->. contradiction.
    + exact IH.
Qed.

(** X21. Deactivation and login together: once [Update] has answered 200
    to a body with [is_active] false for the row a login by e-mail
    resolves to, no login with that e-mail is answered 200, whatever the
    password; the right password gets 403 [Account is inactive]. *)
Theorem Update_deactivation_blocks_Login
    db id name user now password :
  userHandler.status
    (fst (Update db id
            (Some {| userHandler.NewName := name;
                     userHandler.NewIsActive := Some false |})))
  = fiber.StatusOK ->
  query.FirstByID uuidText db id = Ok user ->
  repositories.GetByEmail db (models.Email user) = (Some user, None) ->
  let db' :=
    snd (Update db id
           (Some {| userHandler.NewName := name;
                    userHandler.NewIsActive := Some false |})) in
  let attempt :=
    handlers.Login hmac CompareHashAndPassword isEmail db' now
      (Some {| handlers.Email := models.Email user;
               handlers.Password := password |}) in
  (forall responseBody,
      attempt
      <> handlers.Responded
           {| handlers.status := fiber.StatusOK;
              handlers.body := responseBody |}) /\
  (handlers.ValidateStruct isEmail
     {| handlers.Email := models.Email user;
        handlers.Password := password |} = [] ->
   CompareHashAndPassword (models.Password user) password = true ->
   attempt
   = handlers.ErrorResponse fiber.StatusForbidden "Account is inactive").
Proof.
  intros Hok Hfound Hlogin db' attempt. subst attempt db'.
  destruct (Update_200_inversion _ _ _ Hok)
    as (old & input & Hfound' & Hbody & Hupdate).
  rewrite Hfound in Hfound'. injection Hfound' as <-.
  injection Hbody as <-. cbv zeta in Hupdate.
  cbn [userHandler.NewName userHandler.NewIsActive] in Hupdate.
  rewrite Hupdate. cbn [snd].
  set (new :=
    {| models.ID := models.ID user;
       models.Email := models.Email user;
       models.Name :=
         if negb (String.eqb name "") then name else models.Name user;
       models.Password := models.Password user;
       models.Role := models.Role user;
       models.IsActive := false |}).
  assert (Hresolved :
    repositories.GetByEmail
      {| gorm.users :=
           map (fun r =>
                  if String.eqb (models.ID r) (models.ID user)
                  then new else r) (gorm.users db);
         gorm.fault := None |} (models.Email user)
    = (Some new, None)).
  { revert Hlogin. unfold repositories.GetByEmail, gorm.WhereEmailFirst.
    destruct (gorm.fault db); [discriminate |]. cbn [gorm.fault gorm.users].
    destruct (find (fun u => String.eqb (models.Email u) (models.Email user))
                (gorm.users db)) as [u |] eqn:Hfind; [| discriminate].
    intros Hu. injection Hu as ->.
    erewrite find_email_after_update;
      [reflexivity | reflexivity | exact Hfind]. }
  split.
  - intros responseBody Hlogin200.
    apply Login_200_inversion in Hlogin200
      as (input & found & Hinput & _ & Hfound' & _ & Hactive & _).
    injection Hinput as <-. cbn [handlers.Email] in Hfound'.
    rewrite Hresolved in Hfound'. injection Hfound' as <-.
    discriminate Hactive.
  - intros Hvalid Hpassword.
    unfold handlers.Login. rewrite Hvalid. cbn [handlers.Email].
    rewrite Hresolved. subst new. cbn [models.Password handlers.Password].
    rewrite Hpassword. reflexivity.
Qed.
End UserMaintenance.

Section UserListing.

(** The rows [GetAll] selects for its two query parameters. *)
Local Abbreviation selected role isActive :=
  (fun u : models.User =>
     (String.eqb role "" || String.eqb (models.Role u) role) &&
     (if String.eqb isActive "true" then models.IsActive u
      else if String.eqb isActive "false" then negb (models.IsActive u)
      else true)).

(** X22. [GetAll] on a working database answers 200 with the rows of the
    table, in its order, that have the role asked for (any role when the
    parameter is empty) and the activity asked for by [true] or [false]
    (any other value of [is_active] selects nothing out); the total is
    their number and every user in the answer has its password blanked. *)
Theorem GetAll_selects_and_hides db role isActive :
  gorm.fault db = None ->
  exists users,
    userHandler.GetAll db role isActive
    = {| userHandler.status := fiber.StatusOK;
         userHandler.body :=
           userHandler.UsersBody "Users fetched successfully" users
             (Z.of_nat (length users)) |} /\
    users
    = map userHandler.hidePassword
        (List.filter (selected role isActive) (gorm.users db)) /\
    (forall u, In u users -> models.Password u = "").
Proof.
  intros Hfault.
  assert (Hrows :
    fst (userRepository.GetAll db
           (let filter : gmap string middlewares.any := ∅ in
            let filter :=
              if negb (String.eqb role "") then
                <["role" := middlewares.AnyString role]> filter
              else filter in
            if String.eqb isActive "true" then
              <["is_active" := middlewares.AnyBool true]> filter
            else if String.eqb isActive "false" then
              <["is_active" := middlewares.AnyBool false]> filter
            else filter))
    = List.filter (selected role isActive) (gorm.users db) /\
    snd (userRepository.GetAll db
           (let filter : gmap string middlewares.any := ∅ in
            let filter :=
              if negb (String.eqb role "") then
                <["role" := middlewares.AnyString role]> filter
              else filter in
            if String.eqb isActive "true" then
              <["is_active" := middlewares.AnyBool true]> filter
            else if String.eqb isActive "false" then
              <["is_active" := middlewares.AnyBool false]> filter
            else filter))
    = None).
  { unfold userRepository.GetAll, query.Find. rewrite Hfault. cbv zeta.
    destruct (String.eqb role "") eqn:Hrole;
      destruct (String.eqb isActive "true") eqn:Htrue;
      try destruct (String.eqb isActive "false") eqn:Hfalse;
      cbn [negb];
      repeat (first [ rewrite lookup_insert_eq
                    | rewrite lookup_insert_ne by discriminate
                    | rewrite lookup_empty ]);
      try rewrite Hrole; cbn [negb fst snd app];
      (split; [| reflexivity]);
      apply filter_ext; intros u; cbn [forallb orb andb];
      rewrite ?andb_true_r;
      try reflexivity;
      destruct (models.IsActive u); reflexivity. }
  destruct Hrows as [Hrows Herr].
  unfold userHandler.GetAll. cbv zeta in Hrows, Herr |- *.
  destruct (userRepository.GetAll db _) as [rows err].
  cbn [fst snd] in Hrows, Herr. subst rows err.
  eexists. split; [reflexivity |]. split; [reflexivity |].
  intros u Hin. apply in_map_iff in Hin as (r & <- & _). reflexivity.
Qed.

(** X23. Paging with [GetWithPagination] and [PaginatedResponse] together:
    on a working database and for a positive page size, the row at
    position [i] of the table is served on page [i / pageSize + 1], at
    position [i mod pageSize]; that page is within the page count that
    [PaginatedResponse] reports for the total the repository returns, which
    is the number of rows; and no page is longer than the page size. *)
Theorem GetWithPagination_serves_every_row
    db pageSize (i : nat) (u : models.User) :
  gorm.fault db = None ->
  0 < pageSize < 2 ^ 63 ->
  Z.of_nat (length (gorm.users db)) < 2 ^ 63 ->
  gorm.users db !! i = Some u ->
  let page := Z.of_nat i / pageSize + 1 in
  exists rows n,
    userRepository.GetWithPagination db page pageSize
    = (rows, Z.of_nat (length (gorm.users db)), None) /\
    rows !! Z.to_nat (Z.of_nat i mod pageSize) = Some u /\
    Z.of_nat (length rows) <= pageSize /\
    response.PaginatedResponse rows page pageSize
      (Z.of_nat (length (gorm.users db)))
    = response.Responded fiber.StatusOK "Data fetched successfully" rows
        {| response.page := page;
           response.page_size := pageSize;
           response.total_items := Z.of_nat (length (gorm.users db));
           response.total_pages := n |} /\
    1 <= page <= n.
Proof.
  intros Hfault Hsize Hlength Hrow page. subst page.
  pose proof (lookup_lt_Some _ _ _ Hrow) as Hi.
  pose proof (Z.div_mod (Z.of_nat i) pageSize ltac:(lia)) as Hdm.
  pose proof (Z.mod_pos_bound (Z.of_nat i) pageSize ltac:(lia)) as Hmod.
  assert (Hdiv : 0 <= Z.of_nat i / pageSize)
    by (apply Z.div_pos; lia).
  assert (Hoffset : 0 <= Z.of_nat i / pageSize * pageSize <= Z.of_nat i)
    by nia.
  set (offset := Z.of_nat i / pageSize * pageSize) in *.
  assert (Hrows :
    userRepository.GetWithPagination db (Z.of_nat i / pageSize + 1) pageSize
    = (take (Z.to_nat pageSize) (drop (Z.to_nat offset) (gorm.users db)),
       Z.of_nat (length (gorm.users db)), None)).
  { unfold userRepository.GetWithPagination, query.OffsetLimitFind,
      query.Count, goInt.mul, goInt.sub.
    rewrite Hfault.
    replace (Z.of_nat i / pageSize + 1 - 1) with (Z.of_nat i / pageSize)
      by lia.
    rewrite (wrap_small (Z.of_nat i / pageSize)) by lia.
    fold offset. rewrite (wrap_small offset) by lia.
    destruct (Z.leb_spec 0 pageSize) as [_ | Hneg]; [| lia].
    destruct (Z.ltb_spec 0 offset) as [_ | Hzero]; [reflexivity |].
    replace offset with 0 by lia. reflexivity. }
  pose proof (PaginatedResponse_pages
                (take (Z.to_nat pageSize)
                   (drop (Z.to_nat offset) (gorm.users db)))
                (Z.of_nat i / pageSize + 1) pageSize
                (Z.of_nat (length (gorm.users db))) ltac:(lia) ltac:(lia))
    as Hresponse.
  set (total := Z.of_nat (length (gorm.users db))) in *.
  set (n := if total mod pageSize =? 0 then total / pageSize
            else total / pageSize + 1) in *.
  assert (Hn : total <= n * pageSize).
  { pose proof (Z.div_mod total pageSize ltac:(lia)) as Htotal.
    pose proof (Z.mod_pos_bound total pageSize ltac:(lia)) as Hrem.
    subst n. destruct (Z.eqb_spec (total mod pageSize) 0); nia. }
  eexists. exists n. split; [exact Hrows |].
  split; [| split; [| split; [exact Hresponse |]]].
  - rewrite lookup_take_lt by lia. rewrite lookup_drop.
    replace (Z.to_nat offset + Z.to_nat (Z.of_nat i mod pageSize))%nat
      with i by lia.
    exact Hrow.
  - rewrite length_take. lia.
  - split; [lia |]. nia.
Qed.
End UserListing.

(** ** The client session, the router guard and the users store *)

(** X24. The credential on outgoing requests. After a successful login
    with a non-empty token every request leaves with [Authorization] set to
    [Bearer] and that token, its url, body and other headers as given;
    after [logout] every request leaves exactly as given. *)
Theorem requests_carry_the_session_token :
  (forall server credentials w response D (config : client.Request D),
      server (loginRequest credentials (useAuthStore.browser w))
      = client.Fulfilled response ->
      authApi.token response <> "" ->
      let sent :=
        client.onRequest
          (useAuthStore.browser
             (fst (useAuthStore.login server credentials w))) config in
      client.headers sent !! "Authorization"
      = Some ("Bearer " +:+ authApi.token response) /\
      (forall key, key <> "Authorization" ->
                   client.headers sent !! key
                   = client.headers config !! key) /\
      client.url sent = client.url config /\
      client.data sent = client.data config) /\
  (forall w D (config : client.Request D),
      client.onRequest (useAuthStore.browser (useAuthStore.logout w)) config
      = config).
Proof.
  split.
  - intros server credentials w response D config Hserver Htoken sent.
    subst sent. rewrite (login_Fulfilled _ _ _ _ Hserver).
    unfold client.onRequest. cbn [fst useAuthStore.browser client.localStorage].
    rewrite lookup_insert_eq. unfold client.truthy.
    apply String.eqb_neq in Htoken. rewrite Htoken.
    cbn [negb client.headers client.url client.data].
    split; [apply lookup_insert_eq |].
    split; [| split; reflexivity].
    intros key Hkey. apply lookup_insert_ne. congruence.
  - intros w D config. unfold client.onRequest, useAuthStore.logout.
    cbn [useAuthStore.browser client.localStorage].
    rewrite lookup_delete_eq. reflexivity.
Qed.

(** X25. What survives a page reload after a successful login: the store
    set up by the reload holds the token of the login again, so
    [isAuthenticated] is what it was, but its user is null. *)
Theorem reload_keeps_token_loses_user server credentials w response :
  server (loginRequest credentials (useAuthStore.browser w))
  = client.Fulfilled response ->
  let w1 := fst (useAuthStore.login server credentials w) in
  let w2 := useAuthStore.pageLoad (useAuthStore.browser w1) in
  useAuthStore.user (useAuthStore.store w1) = Some (authApi.user response) /\
  useAuthStore.token (useAuthStore.store w2)
  = useAuthStore.token (useAuthStore.store w1) /\
  useAuthStore.isAuthenticated (useAuthStore.store w2)
  = useAuthStore.isAuthenticated (useAuthStore.store w1) /\
  useAuthStore.user (useAuthStore.store w2) = None /\
  useAuthStore.browser w2 = useAuthStore.browser w1.
Proof.
  intros Hserver w1 w2. subst w2 w1.
  rewrite (login_Fulfilled _ _ _ _ Hserver).
  unfold useAuthStore.pageLoad, useAuthStore.setup,
    useAuthStore.isAuthenticated.
  cbn [fst useAuthStore.store useAuthStore.browser useAuthStore.token
       useAuthStore.user client.localStorage].
  rewrite lookup_insert_eq. repeat split.
Qed.

(** X26. A login on top of a login replaces the session: after two
    successful logins the store and the persisted token are those of the
    second response alone, nothing of the first remains. *)
Theorem second_login_replaces_the_first
    server1 server2 credentials1 credentials2 w response1 response2 :
  server1 (loginRequest credentials1 (useAuthStore.browser w))
  = client.Fulfilled response1 ->
  server2
    (loginRequest credentials2
       (useAuthStore.browser
          (fst (useAuthStore.login server1 credentials1 w))))
  = client.Fulfilled response2 ->
  fst (useAuthStore.login server2 credentials2
         (fst (useAuthStore.login server1 credentials1 w)))
  = {| useAuthStore.store :=
         {| useAuthStore.token := Some (authApi.token response2);
            useAuthStore.user := Some (authApi.user response2);
            useAuthStore.loading := false |};
       useAuthStore.browser :=
         {| client.localStorage :=
              <["token" := authApi.token response2]>
                (client.localStorage (useAuthStore.browser w));
            client.href := client.href (useAuthStore.browser w) |} |}.
Proof.
  intros Hfirst Hsecond.
  rewrite (login_Fulfilled _ _ _ _ Hsecond).
  rewrite (login_Fulfilled _ _ _ _ Hfirst).
  cbn [fst useAuthStore.browser client.localStorage client.href].
  rewrite insert_insert_eq. reflexivity.
Qed.

(** X27. The auth guard settles and protects: every navigation ends, after
    at most one redirect, on its target or on the login route; a route that
    requires authentication is only ever shown when the store's token is
    non-empty; and after [logout] every such route ends on the login
    route. *)
Theorem guard_protects_routes (to : router.Route) :
  (forall authStore,
      exists shown,
        router.navigate to authStore = Some shown /\
        (shown = to \/ shown = router.login) /\
        (router.requiresAuth shown = true ->
         useAuthStore.isAuthenticated authStore = true)) /\
  (forall w,
      router.navigate to (useAuthStore.store (useAuthStore.logout w))
      = Some (if router.requiresAuth to then router.login else to)).
Proof.
  unfold router.navigate, router.beforeEach. split.
  - intros authStore.
    destruct (router.requiresAuth to) eqn:Hrequires;
      destruct (useAuthStore.isAuthenticated authStore) eqn:Hauth;
      cbn [andb negb router.requiresAuth router.login].
    + exists to. split; [reflexivity |]. split; [left; reflexivity |].
      intros _. reflexivity.
    + exists router.login. split; [reflexivity |].
      split; [right; reflexivity | discriminate].
    + exists to. split; [reflexivity |]. split; [left; reflexivity |].
      rewrite Hrequires. discriminate.
    + exists to. split; [reflexivity |]. split; [left; reflexivity |].
      rewrite Hrequires. discriminate.
  - intros w. destruct (router.requiresAuth to); reflexivity.
Qed.

Section UsersStore.
Variable message : client.AxiosError -> string.
Variable deleteServer : client.Request unit -> client.Exchange unit.

(** X28. [remove] in the users store, by the answer of the server to
    the delete request for [/users/<id>] that the client sends. When the
    server answers with success, [remove] returns normally and the list
    is the old list filtered of the users with that id: it loses exactly
    them and keeps the others in their order, so the total cannot grow;
    the error field is left as it was, an earlier error stays displayed,
    and the browser is untouched. When the server answers with an error,
    [remove] throws that error, the list is unchanged, the error field
    holds the error's message, and the browser is what the response
    interceptor made of it. In both cases [loading] ends false. *)
Theorem remove_drops_the_user userId w :
  let request :=
    client.onRequest (useUsersStore.browser w)
      {| client.url := "/users/" +:+ userId;
         client.data := tt;
         client.headers := ∅ |} in
  let after := useUsersStore.remove message deleteServer userId w in
  let s := useUsersStore.store (fst after) in
  (forall responseData,
      deleteServer request = client.Fulfilled responseData ->
      snd after = Ok tt /\
      useUsersStore.users s
      = List.filter
          (fun u => negb (String.eqb (useUsersStore.id u) userId))
          (useUsersStore.users (useUsersStore.store w)) /\
      (forall u, In u (useUsersStore.users s) <->
                 In u (useUsersStore.users (useUsersStore.store w)) /\
                 useUsersStore.id u <> userId) /\
      useUsersStore.total s <= useUsersStore.total (useUsersStore.store w) /\
      useUsersStore.error s = useUsersStore.error (useUsersStore.store w) /\
      useUsersStore.loading s = false /\
      useUsersStore.browser (fst after) = useUsersStore.browser w) /\
  (forall status,
      deleteServer request = client.Failed status ->
      snd after = Err {| client.responseStatus := status |} /\
      useUsersStore.users s = useUsersStore.users (useUsersStore.store w) /\
      useUsersStore.error s
      = Some (message {| client.responseStatus := status |}) /\
      useUsersStore.loading s = false /\
      useUsersStore.browser (fst after)
      = client.onRejected status (useUsersStore.browser w)).
Proof.
  intros request after s. subst s after request.
  unfold useUsersStore.remove, useUsersStore.bodyless.
  split.
  - intros responseData Hanswer. rewrite Hanswer.
    cbn [fst snd useUsersStore.store useUsersStore.loading
         useUsersStore.users useUsersStore.error useUsersStore.browser].
    split; [reflexivity |]. split; [reflexivity |].
    split; [| split; [| repeat split]].
    + intros u. rewrite filter_In, negb_true_iff, String.eqb_neq.
      reflexivity.
    + unfold useUsersStore.total. cbn [useUsersStore.users].
      pose proof (filter_length_le
                    (fun u => negb (String.eqb (useUsersStore.id u) userId))
                    (useUsersStore.users (useUsersStore.store w))).
      lia.
  - intros status Hanswer. rewrite Hanswer.
    cbn [fst snd useUsersStore.store useUsersStore.loading
         useUsersStore.users useUsersStore.error useUsersStore.browser].
    repeat split.
Qed.
End UsersStore.

(** ** The user mapper *)

Lemma split_nonempty s : UserMapper.split s <> [].
Proof.
  destruct s as [| c rest]; simpl; [discriminate |].
  destruct (Ascii.eqb c UserMapper.space); [discriminate |].
  destruct (UserMapper.split rest); discriminate.
Qed.

Lemma join_cons piece next pieces :
  UserMapper.join (piece :: next :: pieces)
  = piece +:+ String UserMapper.space (UserMapper.join (next :: pieces)).
Proof. reflexivity. Qed.

Lemma join_split s : UserMapper.join (UserMapper.split s) = s.
Proof.
  induction s as [| c rest IH]; [reflexivity |].
  cbn [UserMapper.split].
  destruct (UserMapper.split rest) as [| piece pieces] eqn:Hsplit;
    [destruct (split_nonempty rest Hsplit) |].
  destruct (Ascii.eqb_spec c UserMapper.space) as [-> | _].
  - rewrite join_cons, IH. reflexivity.
  - destruct pieces as [| next pieces].
    + cbn [UserMapper.join] in *. rewrite IH. reflexivity.
    + rewrite join_cons in *. rewrite <- IH. reflexivity.
Qed.

Lemma split_without_space s :
  containsSpace s = false -> UserMapper.split s = [s].
Proof.
  induction s as [| c rest IH]; [reflexivity |].
  cbn [containsSpace UserMapper.split]. intros Hnone.
  apply orb_false_iff in Hnone as [Hc Hrest].
  rewrite Hc, (IH Hrest). reflexivity.
Qed.

Lemma split_String c rest :
  UserMapper.split (String c rest)
  = if Ascii.eqb c UserMapper.space then EmptyString :: UserMapper.split rest
    else
      match UserMapper.split rest with
      | piece :: pieces => String c piece :: pieces
      | [] => [String c EmptyString]
      end.
Proof. reflexivity. Qed.

Lemma append_String c a s : String c a +:+ s = String c (a +:+ s).
Proof. reflexivity. Qed.

Lemma append_empty s : EmptyString +:+ s = s.
Proof. reflexivity. Qed.

Lemma split_after_first_space a b :
  containsSpace a = false ->
  UserMapper.split (a +:+ String UserMapper.space b)
  = a :: UserMapper.split b.
Proof.
  induction a as [| c rest IH]; cbn [containsSpace]; intros Hnone.
  - rewrite append_empty, split_String, Ascii.eqb_refl. reflexivity.
  - apply orb_false_iff in Hnone as [Hc Hrest].
    rewrite append_String, split_String, Hc, (IH Hrest). reflexivity.
Qed.

Lemma split_head_without_space s piece pieces :
  UserMapper.split s = piece :: pieces -> containsSpace piece = false.
Proof.
  revert piece pieces. induction s as [| c rest IH]; intros piece pieces.
  - intros Hsplit. injection Hsplit as <- _. reflexivity.
  - cbn [UserMapper.split].
    destruct (Ascii.eqb c UserMapper.space) eqn:Hc.
    + intros Hsplit. injection Hsplit as <- _. reflexivity.
    + destruct (UserMapper.split rest) as [| p ps] eqn:Hrest.
      * intros Hsplit. injection Hsplit as <- _.
        cbn [containsSpace]. rewrite Hc. reflexivity.
      * intros Hsplit. injection Hsplit as <- _.
        cbn [containsSpace]. rewrite Hc. exact (IH p ps eq_refl).
Qed.

Lemma split_with_space s :
  containsSpace s = true ->
  exists piece next pieces, UserMapper.split s = piece :: next :: pieces.
Proof.
  induction s as [| c rest IH]; [discriminate |].
  cbn [containsSpace UserMapper.split]. intros Hsome.
  destruct (Ascii.eqb c UserMapper.space) eqn:Hc.
  - destruct (UserMapper.split rest) as [| p ps] eqn:Hrest;
      [destruct (split_nonempty rest Hrest) |].
    eexists _, _, _. reflexivity.
  - destruct (IH Hsome) as (p & q & ps & ->).
    eexists _, _, _. reflexivity.
Qed.

Section Mapper.
Context {Date : Type} (newDate : string -> Date).

(** X29. Mapping a dto to the domain and back: e-mail and phone always
    come back, and the two names come back exactly when the first name has
    no space in it; a first name with a space comes back cut at its first
    space, the rest moved to the last name. *)
Theorem toDto_toDomain (dto : UserMapper.UserDto) :
  let back := UserMapper.toDto (UserMapper.toDomain newDate dto) in
  UserMapper.dto_email back = UserMapper.email dto /\
  UserMapper.dto_phone back = UserMapper.phone dto /\
  containsSpace (UserMapper.dto_first_name back) = false /\
  UserMapper.dto_first_name back
  +:+ String UserMapper.space (UserMapper.dto_last_name back)
  = UserMapper.first_name dto
    +:+ String UserMapper.space (UserMapper.last_name dto) /\
  ((UserMapper.dto_first_name back = UserMapper.first_name dto /\
    UserMapper.dto_last_name back = UserMapper.last_name dto) <->
   containsSpace (UserMapper.first_name dto) = false).
Proof.
  intros back. subst back. unfold UserMapper.toDto, UserMapper.toDomain.
  cbn [UserMapper.fullName UserMapper.userEmail UserMapper.userPhone].
  set (full := UserMapper.first_name dto
               +:+ String UserMapper.space (UserMapper.last_name dto)).
  assert (Hfull : containsSpace full = true).
  { subst full. induction (UserMapper.first_name dto) as [| c rest IH].
    - rewrite append_empty. cbn [containsSpace].
      rewrite Ascii.eqb_refl. reflexivity.
    - rewrite append_String. cbn [containsSpace].
      rewrite IH. apply orb_true_r. }
  destruct (split_with_space full Hfull) as (piece & next & pieces & Hsplit).
  pose proof (join_split full) as Hjoin.
  pose proof (split_head_without_space _ _ _ Hsplit) as Hpiece.
  rewrite Hsplit in Hjoin |- *. rewrite join_cons in Hjoin.
  cbn [UserMapper.dto_first_name UserMapper.dto_last_name
       UserMapper.dto_email UserMapper.dto_phone].
  split; [reflexivity |]. split; [reflexivity |].
  split; [exact Hpiece |]. split; [exact Hjoin |].
  split.
  - intros [<- _]. exact Hpiece.
  - intros Hfirst.
    pose proof (split_after_first_space _ (UserMapper.last_name dto) Hfirst)
      as Hexact.
    fold full in Hexact. rewrite Hsplit in Hexact.
    injection Hexact as -> Hrest.
    split; [reflexivity |].
    rewrite Hrest. apply join_split.
Qed.

(** X30. Mapping a domain user to a dto and back, through a server that
    stores the names as sent: the full name comes back unchanged exactly
    when it has a space in it; a full name without a space comes back with
    a space added at its end. *)
Theorem toDomain_toDto
    (u : UserMapper.User Date) (id created_at updated_at : string) :
  let back :=
    UserMapper.toDomain newDate
      (echoed (UserMapper.toDto u) id created_at updated_at) in
  UserMapper.userEmail back = UserMapper.userEmail u /\
  UserMapper.userPhone back = UserMapper.userPhone u /\
  (containsSpace (UserMapper.fullName u) = true ->
   UserMapper.fullName back = UserMapper.fullName u) /\
  (containsSpace (UserMapper.fullName u) = false ->
   UserMapper.fullName back
   = UserMapper.fullName u +:+ String UserMapper.space EmptyString).
Proof.
  intros back. subst back.
  unfold UserMapper.toDomain, echoed, UserMapper.toDto.
  pose proof (join_split (UserMapper.fullName u)) as Hjoin.
  destruct (containsSpace (UserMapper.fullName u)) eqn:Hspace.
  - destruct (split_with_space _ Hspace) as (piece & next & pieces & Hsplit).
    rewrite Hsplit in Hjoin |- *. rewrite join_cons in Hjoin.
    cbn [UserMapper.fullName UserMapper.userEmail UserMapper.userPhone
         UserMapper.first_name UserMapper.last_name UserMapper.email
         UserMapper.phone UserMapper.dto_first_name
         UserMapper.dto_last_name UserMapper.dto_email
         UserMapper.dto_phone].
    split; [reflexivity |]. split; [reflexivity |].
    split; [intros _; exact Hjoin | discriminate].
  - rewrite (split_without_space _ Hspace).
    cbn [UserMapper.fullName UserMapper.userEmail UserMapper.userPhone
         UserMapper.first_name UserMapper.last_name UserMapper.email
         UserMapper.phone UserMapper.dto_first_name
         UserMapper.dto_last_name UserMapper.dto_email
         UserMapper.dto_phone UserMapper.join].
    split; [reflexivity |]. split; [reflexivity |].
    split; [discriminate | intros _; reflexivity].
Qed.
End Mapper.

(** ** Examples of the further properties *)

(** Closes a closed arithmetic side condition by evaluation. *)
Local Ltac evaluated :=
  vm_compute; repeat split; first [reflexivity | discriminate].

Lemma PaginatedResponse_total_pages_witness :
  exists n,
    response.PaginatedResponse tt 1 10 25
    = response.Responded fiber.StatusOK "Data fetched successfully" tt
        {| response.page := 1;
           response.page_size := 10;
           response.total_items := 25;
           response.total_pages := n |} /\
    (n - 1) * 10 < 25 <= n * 10.
Proof.
  apply (PaginatedResponse_total_pages tt 1 10 25); evaluated.
Defined.

Lemma ReduceStock_keeps_stock_nonnegative_witness :
  (exists p',
      product.ReduceStock Sample.widget 5 = (p', None) /\
      product.Stock p' = 0 /\
      product.IsAvailable p' = false) /\
  product.ReduceStock Sample.widget 6
  = (Sample.widget, Some "insufficient stock").
Proof.
  destruct (ReduceStock_keeps_stock_nonnegative Sample.widget 5
              ltac:(evaluated) ltac:(evaluated))
    as [Hcovered _].
  destruct (ReduceStock_keeps_stock_nonnegative Sample.widget 6
              ltac:(evaluated) ltac:(evaluated))
    as [_ Hshort].
  split.
  - destruct (Hcovered ltac:(evaluated))
      as (p' & Hreduce & Hstock & _ & _ & Havailable).
    exists p'. split; [exact Hreduce |].
    split; [exact Hstock | exact Havailable].
  - apply Hshort. evaluated.
Defined.


Lemma ReduceStock_negative_quantity_raises_stock_witness :
  exists p',
    product.ReduceStock Sample.widget (-3) = (p', None) /\
    product.Stock p' = 5 - -3 /\
    5 < product.Stock p'.
Proof.
  destruct (ReduceStock_negative_quantity_raises_stock Sample.widget (-3)
              ltac:(evaluated) ltac:(evaluated)) as [_ Haccepted].
  destruct (Haccepted ltac:(evaluated)) as (p' & Hcall & Hfits & _).
  exists p'. split; [exact Hcall |].
  apply Hfits. evaluated.
Defined.

Lemma remove_drops_the_user_witness :
  let removed :=
    useUsersStore.remove Sample.message Sample.deleting "u2" Sample.listed in
  let refused :=
    useUsersStore.remove Sample.message Sample.refusing "u2" Sample.listed in
  (snd removed = Ok tt /\
   useUsersStore.users (useUsersStore.store (fst removed))
   = [Sample.ann; Sample.cat] /\
   useUsersStore.error (useUsersStore.store (fst removed))
   = Some "Network Error") /\
  (snd refused = Err {| client.responseStatus := Some 404 |} /\
   useUsersStore.users (useUsersStore.store (fst refused))
   = [Sample.ann; Sample.ben; Sample.cat] /\
   useUsersStore.error (useUsersStore.store (fst refused))
   = Some "Request failed").
Proof.
  intros removed refused. split.
  - destruct (remove_drops_the_user Sample.message Sample.deleting "u2"
                Sample.listed) as [Hfulfilled _].
    destruct (Hfulfilled tt eq_refl)
      as (Hresult & Husers & _ & _ & Herror & _).
    split; [exact Hresult |]. split; [exact Husers | exact Herror].
  - destruct (remove_drops_the_user Sample.message Sample.refusing "u2"
                Sample.listed) as [_ Hfailed].
    destruct (Hfailed (Some 404) eq_refl)
      as (Hresult & Husers & Herror & _).
    split; [exact Hresult |]. split; [exact Husers | exact Herror].
Defined.

Lemma LoadConfig_resolution_witness :
  exists cfg,
    snd (config.LoadConfig (Some Sample.dotenv) Sample.environ) = Some cfg /\
    config.Port cfg = "3000" /\
    config.DBPassword cfg = "s3cret" /\
    config.JWTSecret cfg = "your-secret-key".
Proof.
  eexists. split; [reflexivity |].
  destruct (LoadConfig_resolution (Some Sample.dotenv) Sample.environ _
              eq_refl) as [Hcfg _].
  repeat split.
Defined.

Lemma Create_then_Login_witness :
  exists token,
    handlers.Login Example.hmac Example.CompareHashAndPassword
      Example.isEmail
      (snd (userHandler.Create Example.isEmail Sample.RuneCountInString
              Sample.GenerateFromPassword Sample.db "f000" "b222" "salt"
              (Ok Sample.registration))) 1000
      (Some {| handlers.Email := "dave@example.com";
               handlers.Password := "p4ssword" |})
    = handlers.Responded
        {| handlers.status := fiber.StatusOK;
           handlers.body :=
             handlers.LoginBody "Login successful" token
               {| handlers.id := "b222";
                  handlers.email := "dave@example.com";
                  handlers.name := "Dave";
                  handlers.role := "user" |} |} /\
    utils.ValidateJWT Example.hmac 1000 token
    = Ok (issuedClaims 1000 "b222" "dave@example.com" "user").
Proof.
  apply (Create_then_Login Example.hmac Example.CompareHashAndPassword
           Example.isEmail Sample.RuneCountInString
           Sample.GenerateFromPassword Sample.db "f000" "b222" "salt"
           Sample.registration 1000).
  - intros hashed Hhash. injection Hhash as <-. reflexivity.
  - reflexivity.
Defined.

Lemma Sample_db_primary_key : NoDup (map models.ID (gorm.users Sample.db)).
Proof.
  apply NoDup_cons. split.
  - intros Hin. apply list_elem_of_In in Hin.
    destruct Hin as [Heq | []]. discriminate Heq.
  - apply NoDup_singleton.
Defined.

Lemma Delete_keeps_admins_witness :
  In Sample.root
    (gorm.users (snd (userHandler.Delete Sample.uuidText Sample.db "0001")))
  /\
  In Sample.root
    (gorm.users (snd (userHandler.Delete Sample.uuidText Sample.db "a111"))).
Proof.
  split;
    apply (Delete_keeps_admins Sample.uuidText Sample.db _ Sample.root
             Sample_db_primary_key);
    first [left; reflexivity | reflexivity].
Defined.

Lemma Update_keeps_credentials_witness :
  map (fun r => (models.ID r, models.Email r, models.Password r,
                 models.Role r))
    (gorm.users
       (snd (userHandler.Update Sample.uuidText Sample.db "a111"
               (Some {| userHandler.NewName := "Caroline";
                        userHandler.NewIsActive := Some false |}))))
  = [("0001", "root@example.com", "$2a$toor", "admin");
     ("a111", "carol@example.com", "$2a$s3cret!", "user")].
Proof.
  apply (Update_keeps_credentials Sample.uuidText Sample.db "a111"
           (Some {| userHandler.NewName := "Caroline";
                    userHandler.NewIsActive := Some false |})
           Sample_db_primary_key).
Defined.

Lemma Update_deactivation_blocks_Login_witness :
  handlers.Login Example.hmac Example.CompareHashAndPassword Example.isEmail
    (snd (userHandler.Update Sample.uuidText Sample.db "a111"
            (Some {| userHandler.NewName := "";
                     userHandler.NewIsActive := Some false |})))
    1000
    (Some {| handlers.Email := "carol@example.com";
             handlers.Password := "s3cret!" |})
  = handlers.ErrorResponse fiber.StatusForbidden "Account is inactive".
Proof.
  destruct (Update_deactivation_blocks_Login Example.hmac
              Example.CompareHashAndPassword Example.isEmail
              Sample.uuidText Sample.db "a111" "" Sample.carol 1000
              "s3cret!" eq_refl eq_refl eq_refl) as [_ Hforbidden].
  apply Hforbidden; reflexivity.
Defined.

Lemma GetAll_selects_and_hides_witness :
  exists users,
    userHandler.GetAll Sample.db "admin" "yes"
    = {| userHandler.status := fiber.StatusOK;
         userHandler.body :=
           userHandler.UsersBody "Users fetched successfully" users
             (Z.of_nat (length users)) |} /\
    users = [userHandler.hidePassword Sample.root].
Proof.
  destruct (GetAll_selects_and_hides Sample.db "admin" "yes" eq_refl)
    as (users & Hresponse & Husers & _).
  exists users. split; [exact Hresponse | exact Husers].
Defined.

Lemma GetWithPagination_serves_every_row_witness :
  exists rows n,
    userRepository.GetWithPagination Sample.db 2 1 = (rows, 2, None) /\
    rows !! 0%nat = Some Sample.carol /\
    1 <= 2 <= n.
Proof.
  destruct (GetWithPagination_serves_every_row Sample.db 1 1 Sample.carol
              eq_refl ltac:(evaluated) eq_refl eq_refl)
    as (rows & n & Hpage & Hrow & _ & _ & Hn).
  exists rows, n. split; [exact Hpage |]. split; [exact Hrow | exact Hn].
Defined.

Lemma reload_keeps_token_loses_user_witness :
  let w1 :=
    fst (useAuthStore.login (Example.accepting "t1") Example.credentials
           (useAuthStore.pageLoad Example.signedOut)) in
  let w2 := useAuthStore.pageLoad (useAuthStore.browser w1) in
  useAuthStore.token (useAuthStore.store w2) = Some "t1" /\
  useAuthStore.user (useAuthStore.store w2) = None.
Proof.
  intros w1 w2.
  destruct (reload_keeps_token_loses_user (Example.accepting "t1")
              Example.credentials (useAuthStore.pageLoad Example.signedOut)
              _ eq_refl) as (_ & Htoken & _ & Huser & _).
  split; [exact Htoken | exact Huser].
Defined.

Lemma second_login_replaces_the_first_witness :
  useAuthStore.token
    (useAuthStore.store
       (fst (useAuthStore.login (Example.accepting "t2") Example.credentials
               (fst (useAuthStore.login (Example.accepting "t1")
                       Example.credentials
                       (useAuthStore.pageLoad Example.signedOut))))))
  = Some "t2".
Proof.
  rewrite (second_login_replaces_the_first (Example.accepting "t1")
             (Example.accepting "t2") Example.credentials Example.credentials
             (useAuthStore.pageLoad Example.signedOut) _ _ eq_refl eq_refl).
  reflexivity.
Defined.
